(** * mcp-amundsen: the metadata normalizers and the catalog client of [main.py]

    A shallow embedding of [src/main.py].  JSON values are the Python values
    [json.loads] produces, dictionaries are finite maps keyed by strings,
    exceptions are an error result, and the network and the standard output
    are an explicit world threaded through the client's methods. *)

From Stdlib Require Import PrimFloat.
From stdpp Require Import gmap strings list fin_maps pretty.

Set Warnings "-register-all".
Set Default Proof Using "Type".

(** ** Python values *)

(** What [json.loads] returns: [None], [bool], [int], [float], [str], [list]
    and [dict] with string keys. *)
Inductive pyval : Type :=
  | PNone
  | PBool (b : bool)
  | PInt (z : Z)
  | PFloat (f : float)
  | PStr (s : string)
  | PList (l : list pyval)
  | PDict (d : gmap string pyval).

(** [Dict[str, Any]], the declared type of every response and of the
    [table_data] parameter of the processors. *)
Abbreviation pydict := (gmap string pyval).

(** The exceptions the modelled code can raise. *)
Inductive pyexc : Type :=
  | TypeError        (* iterating a value that is not iterable *)
  | AttributeError   (* [.get] on a value that is not a dict *)
  | KeyError         (* [d[k]] on a missing key *)
  | ValueError       (* e.g. [json.JSONDecodeError], not caught by [make_request] *)
  | HTTPException.   (* e.g. [http.client.InvalidURL], not caught either *)

(** A computation that returns a value or raises. *)
Inductive res (A : Type) : Type :=
  | Ok (a : A)
  | Raise (e : pyexc).
Arguments Ok {A} a.
Arguments Raise {A} e.

#[export] Instance res_ret : MRet res := λ A a, Ok a.
#[export] Instance res_bind : MBind res := λ A B k m,
  match m with
  | Ok a => k a
  | Raise e => Raise e
  end.

Definition is_ok {A} (m : res A) : bool :=
  match m with Ok _ => true | Raise _ => false end.

(** ** Python operations on JSON values *)

(** [bool(v)], as used by [if a or b:]. *)
Definition py_truthy (v : pyval) : bool :=
  match v with
  | PNone => false
  | PBool b => b
  | PInt z => negb (z =? 0)%Z
  | PFloat f => negb (PrimFloat.eqb f 0%float)
  | PStr s => negb (String.eqb s "")
  | PList l => negb (length l =? 0)%nat
  | PDict d => negb (size d =? 0)%nat
  end.

(** [v == s] for a string literal [s]: values of any other type compare
    unequal to a [str]. *)
Definition py_eq_str (v : pyval) (s : string) : bool :=
  match v with
  | PStr t => String.eqb t s
  | _ => false
  end.

(** [d.get(k, dflt)] on a dictionary. *)
Definition dict_get (d : pydict) (k : string) (dflt : pyval) : pyval :=
  default dflt (d !! k).

(** [d[k]] on a dictionary. *)
Definition dict_getitem (d : pydict) (k : string) : res pyval :=
  match d !! k with
  | Some v => Ok v
  | None => Raise KeyError
  end.

(** [k in d] on a dictionary. *)
Definition dict_contains (d : pydict) (k : string) : bool :=
  bool_decide (is_Some (d !! k)).

(** [v.get(k, dflt)] on a loop variable, which can be any JSON value: only a
    dict has the method. *)
Definition py_get (v : pyval) (k : string) (dflt : pyval) : res pyval :=
  match v with
  | PDict d => Ok (dict_get d k dflt)
  | _ => Raise AttributeError
  end.

Fixpoint chars (s : string) : list pyval :=
  match s with
  | EmptyString => []
  | String c s' => PStr (String c EmptyString) :: chars s'
  end.

(** The elements [for x in v:] visits.  A list yields its elements, a string
    its characters, a dictionary its keys (here in the map's order: every
    loop body of the program raises on its first string element, so the
    order is not observable); anything else is not iterable. *)
Definition py_iter (v : pyval) : res (list pyval) :=
  match v with
  | PList l => Ok l
  | PStr s => Ok (chars s)
  | PDict d => Ok (PStr <$> (map_to_list d).*1)
  | PNone | PBool _ | PInt _ | PFloat _ => Raise TypeError
  end.

(** [for x in xs: body], the body acting on the loop's mutable state. *)
Fixpoint for_each {S : Type} (xs : list pyval) (body : pyval → S → res S)
    (s : S) : res S :=
  match xs with
  | [] => Ok s
  | x :: xs' => s' ← body x s; for_each xs' body s'
  end.

(** ** MetadataProcessor *)

Module MetadataProcessor.

(** The body of the inner loop of [extract_columns]: one badge. *)
Definition badge_step (column_info : pyval) (badge : pyval)
    (partition_keys : list pyval) : res (list pyval) :=
  badge_name ← py_get badge "badge_name" PNone;
  if py_eq_str badge_name "partition column"
  then Ok (partition_keys ++ [column_info])
  else Ok partition_keys.

(** The body of the outer loop of [extract_columns]: one column; the state is
    the pair of lists held by [column_metadata]. *)
Definition column_step (column : pyval) (column_metadata : list pyval * list pyval)
    : res (list pyval * list pyval) :=
  let '(columns, partition_keys) := column_metadata in
  name ← py_get column "name" PNone;
  col_type ← py_get column "col_type" PNone;
  description ← py_get column "description" PNone;
  let column_info :=
    PDict {[ "name" := name; "type" := col_type; "description" := description ]} in
  let columns := columns ++ [column_info] in
  badges ← py_get column "badges" (PList []);
  badges ← py_iter badges;
  partition_keys ← for_each badges (badge_step column_info) partition_keys;
  Ok (columns, partition_keys).

Definition extract_columns (table_data : pydict) : res pyval :=
  if dict_contains table_data "error" then
    e ← dict_getitem table_data "error";
    Ok (PDict {[ "error" := e ]})
  else
    columns ← py_iter (dict_get table_data "columns" (PList []));
    '(columns, partition_keys) ← for_each columns column_step ([], []);
    Ok (PDict {[ "columns" := PList columns;
                 "partition_keys" := PList partition_keys ]}).

(** The body of the loop of [extract_date_range]: one watermark; the state is
    the pair [date_range["from"]], [date_range["to"]]. *)
Definition watermark_step (watermark : pyval) (date_range : pyval * pyval)
    : res (pyval * pyval) :=
  let '(from, to) := date_range in
  watermark_type ← py_get watermark "watermark_type" PNone;
  if py_eq_str watermark_type "low_watermark" then
    key ← py_get watermark "partition_key" PNone;
    value ← py_get watermark "partition_value" PNone;
    Ok (PDict {[ "key" := key; "value" := value ]}, to)
  else
    watermark_type ← py_get watermark "watermark_type" PNone;
    if py_eq_str watermark_type "high_watermark" then
      key ← py_get watermark "partition_key" PNone;
      value ← py_get watermark "partition_value" PNone;
      Ok (from, PDict {[ "key" := key; "value" := value ]})
    else Ok (from, to).

Definition extract_date_range (table_data : pydict) : res pyval :=
  if dict_contains table_data "error" then
    e ← dict_getitem table_data "error";
    Ok (PDict {[ "error" := e ]})
  else
    watermarks ← py_iter (dict_get table_data "watermarks" (PList []));
    '(from, to) ← for_each watermarks watermark_step (PNone, PNone);
    if py_truthy from || py_truthy to
    then Ok (PDict {[ "from" := from; "to" := to ]})
    else Ok (PStr "table has no date range").

(** The body of the loop of [extract_owners]: one owner. *)
Definition owner_step (owner : pyval) (owners : list pyval) : res (list pyval) :=
  user_id ← py_get owner "user_id" PNone;
  Ok (owners ++ [user_id]).

Definition extract_owners (table_data : pydict) : res pyval :=
  if dict_contains table_data "error" then
    e ← dict_getitem table_data "error";
    Ok (PDict {[ "error" := e ]})
  else
    owners ← py_iter (dict_get table_data "owners" (PList []));
    owners ← for_each owners owner_step [];
    if (0 <? length owners)%nat
    then Ok (PList owners)
    else Ok (PStr "the table has no owners").

End MetadataProcessor.

(** ** The world: standard output and the network *)

(** What the program leaves behind: the lines printed and the URLs opened,
    oldest first. *)
Record world : Type := World {
  stdout : list string;
  requests : list string
}.

(** What [urllib.request.urlopen(url)] followed by [json.loads] comes to.
    A body is a JSON object, the [Dict[str, Any]] that [make_request]
    declares; a body that parses to another JSON value (a list, a string, a
    number, null) is not modelled, and every statement about [Body] is a
    statement about responses that are JSON objects. *)
Inductive http_outcome : Type :=
  | Body (response : pydict)   (* a parsed JSON object *)
  | URLError (msg : string)    (* [URLError] or [HTTPError], with [str(e)] *)
  | Uncaught (e : pyexc).      (* any exception [make_request] does not catch *)

(** A method that prints, opens URLs and may raise. *)
Definition io (A : Type) : Type := world → res A * world.

#[export] Instance io_ret : MRet io := λ A a w, (Ok a, w).
#[export] Instance io_bind : MBind io := λ A B k m w,
  match m w with
  | (Ok a, w') => k a w'
  | (Raise e, w') => (Raise e, w')
  end.

(** A pure computation run inside a method. *)
Definition lift {A} (r : res A) : io A := λ w, (r, w).

Definition print (line : string) : io () :=
  λ w, (Ok (), {| stdout := stdout w ++ [line]; requests := requests w |}).

Section Client.

(** [AmundsenApiClient.BASE_URL], read from the environment at start-up. *)
Variable BASE_URL : string.
(** The catalog service as seen through [urlopen]. *)
Variable urlopen : string → http_outcome.

Definition urlopen_json (url : string) : io http_outcome :=
  λ w, (Ok (urlopen url), {| stdout := stdout w; requests := requests w ++ [url] |}).

(** [AmundsenApiClient.make_request] *)
Definition make_request (url : string) : io pydict :=
  print ("Requesting: " +:+ url);;
  outcome ← urlopen_json url;
  match outcome with
  | Body response => mret response
  | URLError msg => mret {[ "error" := PStr msg ]}
  | Uncaught e => lift (Raise e)
  end.

(** [TableApiClient.get_table_url] *)
Definition get_table_url (database schema_name table_name : string) : string :=
  BASE_URL +:+ "/table/" +:+ database +:+ "://gold." +:+ schema_name +:+ "/" +:+ table_name.

(** [TableApiClient.get_metadata] *)
Definition get_metadata (database schema_name table_name : string) : io pydict :=
  let url := get_table_url database schema_name table_name in
  make_request url.

(** [TableApiClient.get_lineage]; an argument left out is [None] and takes
    the default of the signature. *)
Definition get_lineage (database schema_name table_name : string)
    (depth : option Z) (direction : option string) : io pyval :=
  let depth := default 1%Z depth in
  let direction := default "both" direction in
  if negb (bool_decide (direction ∈ ["both"; "upstream"; "downstream"])) then
    mret (PDict {[ "error" :=
      PStr "Invalid direction. Must be one of: both, upstream, downstream" ]})
  else
    let base_url := get_table_url database schema_name table_name in
    let url := base_url +:+ "/lineage?depth=" +:+ pretty depth
                 +:+ "&direction=" +:+ direction in
    response ← make_request url;
    let upstream := dict_get response "upstream_entities" PNone in
    let downstream := dict_get response "downstream_entities" PNone in
    let lineage := PDict {[ "upstream" := upstream; "downstream" := downstream ]} in
    if py_truthy upstream || py_truthy downstream
    then mret lineage
    else mret (PStr "Table has no lineage").

(** The body of the loop of [get_tables_dashboard]: one raw dashboard. *)
Definition dashboard_step (raw_dashboard : pyval) (dashboards : list pyval)
    : res (list pyval) :=
  dashboard_url ← py_get raw_dashboard "url" PNone;
  dashboard_name ← py_get raw_dashboard "name" PNone;
  collection_name ← py_get raw_dashboard "group_name" PNone;
  Ok (dashboards ++ [PDict {[ "url" := dashboard_url;
                              "dashboard_name" := dashboard_name;
                              "collection_name" := collection_name ]}]).

(** [TableApiClient.get_tables_dashboard] *)
Definition get_tables_dashboard (database schema_name table_name : string) : io pyval :=
  let base_url := get_table_url database schema_name table_name in
  let url := base_url +:+ "/dashboard/" in
  response ← make_request url;
  let raw_dashboards := dict_get response "dashboards" PNone in
  raw_dashboards ← lift (py_iter raw_dashboards);
  dashboards ← lift (for_each raw_dashboards dashboard_step []);
  if (0 <? length dashboards)%nat
  then mret (PList dashboards)
  else mret (PStr "table has no dashboard").

(** ** The tools registered with the MCP server *)

Definition get_table_columns (database schema_name table_name : string) : io pyval :=
  table_data ← get_metadata database schema_name table_name;
  lift (MetadataProcessor.extract_columns table_data).

Definition get_table_date_range (database schema_name table_name : string) : io pyval :=
  table_data ← get_metadata database schema_name table_name;
  lift (MetadataProcessor.extract_date_range table_data).

Definition get_table_owners (database schema_name table_name : string) : io pyval :=
  table_data ← get_metadata database schema_name table_name;
  lift (MetadataProcessor.extract_owners table_data).

Definition get_table_lineage_info (database schema_name table_name : string)
    (depth : option Z) (direction : option string) : io pyval :=
  let depth := default 1%Z depth in
  let direction := default "both" direction in
  get_lineage database schema_name table_name (Some depth) (Some direction).

Definition get_table_dasboard_info (database schema_name table_name : string) : io pyval :=
  get_tables_dashboard database schema_name table_name.

End Client.

(** ** The shapes of the data model

    The fields the normalizers consume are lists of mappings
    ([columns[]], [badges[]], [watermarks[]], [owners[]], [dashboards[]]).
    [field_dicts d k] reads field [k] of [d] as such a list: an absent field
    is the empty list, and a field of any other shape has no reading. *)

Fixpoint dicts_of (l : list pyval) : option (list pydict) :=
  match l with
  | [] => Some []
  | PDict d :: l' => (d ::.) <$> dicts_of l'
  | _ :: _ => None
  end.

Definition field_dicts (d : pydict) (k : string) : option (list pydict) :=
  match d !! k with
  | None => Some []
  | Some (PList l) => dicts_of l
  | Some _ => None
  end.

(** The badges of a column that has a reading. *)
Definition badges_of (column : pydict) : list pydict :=
  default [] (field_dicts column "badges").

(** A column whose [badges] field has a reading. *)
Definition badges_ok (column : pydict) : bool :=
  match field_dicts column "badges" with Some _ => true | None => false end.

(** ColumnSummary: [{name, type, description}] of one column entry. *)
Definition column_summary (column : pydict) : pyval :=
  PDict {[ "name" := dict_get column "name" PNone;
           "type" := dict_get column "col_type" PNone;
           "description" := dict_get column "description" PNone ]}.

(** A badge whose name is exactly ["partition column"]. *)
Definition is_partition_badge (badge : pydict) : bool :=
  py_eq_str (dict_get badge "badge_name" PNone) "partition column".

(** How many badges of the column are partition badges. *)
Definition partition_badge_count (column : pydict) : nat :=
  length (List.filter is_partition_badge (badges_of column)).

(** What one column contributes to [partition_keys]. *)
Definition partition_entries (column : pydict) : list pyval :=
  replicate (partition_badge_count column) (column_summary column).

(** The [{key, value}] of one watermark entry. *)
Definition watermark_bound (watermark : pydict) : pyval :=
  PDict {[ "key" := dict_get watermark "partition_key" PNone;
           "value" := dict_get watermark "partition_value" PNone ]}.

Definition is_watermark (type : string) (watermark : pydict) : bool :=
  py_eq_str (dict_get watermark "watermark_type" PNone) type.

(** The bound of the last watermark of the given type, [None] without one. *)
Definition last_bound (type : string) (watermarks : list pydict) : pyval :=
  from_option watermark_bound PNone (last (List.filter (is_watermark type) watermarks)).

(** The [user_id] of one owner entry. *)
Definition user_id_of (owner : pydict) : pyval :=
  dict_get owner "user_id" PNone.

Definition is_none (v : pyval) : bool :=
  match v with PNone => true | _ => false end.

(** DashboardRef: [{url, dashboard_name, collection_name}] of one raw entry. *)
Definition dashboard_ref (raw : pydict) : pyval :=
  PDict {[ "url" := dict_get raw "url" PNone;
           "dashboard_name" := dict_get raw "name" PNone;
           "collection_name" := dict_get raw "group_name" PNone ]}.

(** The JSON values that [for x in v:] cannot iterate: null, booleans and
    numbers. *)
Definition not_iterable (v : pyval) : bool :=
  match v with
  | PNone | PBool _ | PInt _ | PFloat _ => true
  | PStr _ | PList _ | PDict _ => false
  end.

(** A lineage field as the data model has it: a sequence or null. *)
Definition seq_or_null (v : pyval) : bool :=
  match v with PNone | PList _ => true | _ => false end.

(** The world after one request: the URL traced on the standard output,
    then opened. *)
Definition after_request (url : string) (w : world) : world :=
  {| stdout := stdout w ++ ["Requesting: " +:+ url];
     requests := requests w ++ [url] |}.

(** The wire shape of the lineage request. *)
Definition lineage_url (table_url : string) (depth : Z) (direction : string) : string :=
  table_url +:+ "/lineage?depth=" +:+ pretty depth +:+ "&direction=" +:+ direction.

(** The wire shape of the dashboard request. *)
Definition dashboard_url (table_url : string) : string :=
  table_url +:+ "/dashboard/".

(** A lineage field that is missing, null or an empty list. *)
Definition absent_or_empty (response : pydict) (k : string) : Prop :=
  response !! k = None ∨ response !! k = Some PNone ∨ response !! k = Some (PList []).

(** The tool façade as the specification words it: fetch, normalize,
    return the normalizer's output as it is. *)
Definition fetch_then_normalize (fetch : io pydict) (normalize : pydict → res pyval)
    : io pyval :=
  λ w, match fetch w with
       | (Ok response, w') => (normalize response, w')
       | (Raise e, w') => (Raise e, w')
       end.

(** ** Readings of arbitrary values

    What a loop of the program makes of any JSON value: [iter_dicts v] is
    the list of mappings [for x in v:] visits when [v] is iterable and all
    its elements are mappings. *)

Definition is_dict (v : pyval) : bool :=
  match v with PDict _ => true | _ => false end.

Definition iter_dicts (v : pyval) : option (list pydict) :=
  match py_iter v with
  | Ok l => dicts_of l
  | Raise _ => None
  end.

(** The badges a column's inner loop visits. *)
Definition badges_iter (column : pydict) : option (list pydict) :=
  iter_dicts (dict_get column "badges" (PList [])).

Definition badges_iter_ok (column : pydict) : bool :=
  match badges_iter column with Some _ => true | None => false end.

(** What one column contributes to [partition_keys], whatever iterable its
    [badges] field is. *)
Definition partition_entries_iter (column : pydict) : list pyval :=
  replicate (length (List.filter is_partition_badge (default [] (badges_iter column))))
            (column_summary column).

(** The columns the outer loop of [extract_columns] gets through. *)
Definition readable_columns (l : list pyval) : option (list pydict) :=
  match dicts_of l with
  | Some cols => if forallb badges_iter_ok cols then Some cols else None
  | None => None
  end.

(** The exceptions a loop over a malformed field raises. *)
Definition loop_error (e : pyexc) : Prop := e = TypeError ∨ e = AttributeError.

(** The standard output holds one trace line per URL opened, in order. *)
Definition trace_mirrors_requests (w : world) : Prop :=
  stdout w = (λ url, "Requesting: " +:+ url) <$> requests w.

(** The worlds a tool can leave: the one it found, or that one after a
    single request. *)
Definition one_call_later (w w' : world) : Prop :=
  w' = w ∨ ∃ url, w' = after_request url w.

(** ** Sample data *)

Definition w0 : world := {| stdout := []; requests := [] |}.

Definition sample_columns : list pydict :=
  [ {[ "name" := PStr "ds"; "col_type" := PStr "string";
       "description" := PStr "partition date";
       "badges" := PList [PDict {[ "badge_name" := PStr "partition column" ]};
                          PDict {[ "badge_name" := PStr "partition column" ]}] ]};
    {[ "name" := PStr "region"; "col_type" := PStr "string";
       "badges" := PList [PDict {[ "badge_name" := PStr "Partition Column" ]}] ]};
    {[ "name" := PStr "id"; "col_type" := PStr "bigint" ]} ].

Definition sample_watermarks : list pydict :=
  [ {[ "watermark_type" := PStr "low_watermark"; "partition_key" := PStr "ds";
       "partition_value" := PStr "2019-01-01" ]};
    {[ "watermark_type" := PStr "low_watermark"; "partition_key" := PStr "ds";
       "partition_value" := PStr "2020-01-01" ]};
    {[ "watermark_type" := PStr "high_watermark"; "partition_key" := PStr "ds";
       "partition_value" := PStr "2020-12-31" ]} ].

Definition sample_owners : list pydict :=
  [ {[ "user_id" := PStr "a" ]}; {[ "user_id" := PStr "a" ]} ].

Definition sample_table : pydict :=
  {[ "columns" := PList (PDict <$> sample_columns);
     "watermarks" := PList (PDict <$> sample_watermarks);
     "owners" := PList (PDict <$> sample_owners) ]}.

Definition sample_dashboards : list pydict :=
  [ {[ "url" := PStr "http://bi/1"; "name" := PStr "Sales"; "group_name" := PStr "Finance" ]} ].

Definition sample_dashboard_response : pydict :=
  {[ "dashboards" := PList (PDict <$> sample_dashboards) ]}.

Definition sample_lineage_response : pydict :=
  {[ "upstream_entities" := PList [PDict {[ "key" := PStr "hive://gold.core/raw" ]}];
     "downstream_entities" := PList [] ]}.

Definition sample_failure : pydict :=
  {[ "error" := PStr "HTTP Error 404: NOT FOUND"; "columns" := PNone ]}.

(** An owners list with an entry that is no mapping. *)
Definition sample_bad_owners : pydict :=
  {[ "owners" := PList [PDict {[ "user_id" := PStr "a" ]}; PInt 3] ]}.

(** A watermarks field that cannot be iterated. *)
Definition sample_bad_watermarks : pydict :=
  {[ "watermarks" := PInt 0 ]}.

(** A column whose badges are given as text. *)
Definition sample_bad_columns : pydict :=
  {[ "columns" := PList [PDict {[ "name" := PStr "ds"; "badges" := PStr "pk" ]}] ]}.

(** A catalog that answers every request with the same object. *)
Definition catalog_serving (response : pydict) : string → http_outcome :=
  λ _, Body response.

(** A catalog that is down: every request fails. *)
Definition catalog_down : string → http_outcome :=
  λ _, URLError "HTTP Error 404: NOT FOUND".

(** ** Loops over well-shaped lists *)

Import MetadataProcessor.

Lemma dicts_of_Some l xs : dicts_of l = Some xs → l = PDict <$> xs.
Proof.
  revert xs. induction l as [|v l IH]; intros xs H; simpl in H.
  - by simplify_eq.
  - destruct v; try done.
    destruct (dicts_of l) as [ys|] eqn:E; simplify_eq/=.
    by rewrite (IH ys).
Qed.

Lemma dicts_of_fmap xs : dicts_of (PDict <$> xs) = Some xs.
Proof. induction xs as [|x xs IH]; csimpl; [done|]. by rewrite IH. Qed.

Lemma field_dicts_get d k xs :
  field_dicts d k = Some xs → dict_get d k (PList []) = PList (PDict <$> xs).
Proof.
  unfold field_dicts, dict_get. destruct (d !! k) as [v|]; simpl.
  - destruct v; try done. intros H. by rewrite (dicts_of_Some _ _ H).
  - intros. by simplify_eq.
Qed.

Lemma field_dicts_present d k v xs :
  d !! k = Some v → field_dicts d k = Some xs → v = PList (PDict <$> xs).
Proof.
  unfold field_dicts. intros ->. destruct v; try done.
  intros H. by rewrite (dicts_of_Some _ _ H).
Qed.

Lemma dict_contains_false d k : d !! k = None → dict_contains d k = false.
Proof.
  intros H. unfold dict_contains. rewrite H.
  apply bool_decide_eq_false. by intros [? ?].
Qed.

Lemma dict_contains_true d k v : d !! k = Some v → dict_contains d k = true.
Proof.
  intros H. unfold dict_contains. rewrite H.
  apply bool_decide_eq_true. by eexists.
Qed.

Lemma res_bind_Ok {A B} (a : A) (k : A → res B) : (Ok a ≫= k) = k a.
Proof. reflexivity. Qed.

Lemma for_each_nil {S} (body : pyval → S → res S) s : for_each [] body s = Ok s.
Proof. reflexivity. Qed.

Lemma for_each_cons {S} x xs (body : pyval → S → res S) s :
  for_each (x :: xs) body s = body x s ≫= for_each xs body.
Proof. reflexivity. Qed.

Lemma badge_step_dict column_info (b : pydict) pks :
  badge_step column_info (PDict b) pks
  = Ok (if is_partition_badge b then pks ++ [column_info] else pks).
Proof. unfold badge_step, is_partition_badge. simpl. by case_match. Qed.

Lemma badge_loop column_info (bs : list pydict) pks :
  for_each (PDict <$> bs) (badge_step column_info) pks
  = Ok (pks ++ replicate (length (List.filter is_partition_badge bs)) column_info).
Proof.
  revert pks. induction bs as [|b bs IH]; intros pks.
  - by rewrite fmap_nil, for_each_nil, app_nil_r.
  - rewrite fmap_cons, for_each_cons, badge_step_dict, res_bind_Ok, IH. simpl.
    destruct (is_partition_badge b); simpl; [|done].
    by rewrite <-app_assoc.
Qed.

Lemma column_step_dict (c : pydict) bs cs pks :
  field_dicts c "badges" = Some bs →
  column_step (PDict c) (cs, pks)
  = Ok (cs ++ [column_summary c],
        pks ++ replicate (length (List.filter is_partition_badge bs)) (column_summary c)).
Proof.
  intros Hbs. unfold column_step. simpl.
  rewrite (field_dicts_get _ _ _ Hbs). simpl.
  fold (column_summary c). by rewrite badge_loop.
Qed.

Lemma column_loop (cols : list pydict) cs pks :
  forallb badges_ok cols = true →
  for_each (PDict <$> cols) column_step (cs, pks)
  = Ok (cs ++ (column_summary <$> cols), pks ++ (cols ≫= partition_entries)).
Proof.
  revert cs pks. induction cols as [|c cols IH]; intros cs pks Hcols.
  - by rewrite fmap_nil, for_each_nil, !app_nil_r.
  - simpl in Hcols. apply andb_prop in Hcols as [Hc Hcols].
    unfold badges_ok in Hc.
    destruct (field_dicts c "badges") as [bs|] eqn:Hbs; [clear Hc|done].
    specialize (λ cs pks, IH cs pks Hcols).
    rewrite !fmap_cons, for_each_cons, (column_step_dict _ _ _ _ Hbs), res_bind_Ok, IH.
    rewrite bind_cons. unfold partition_entries at 2, partition_badge_count, badges_of.
    rewrite Hbs. simpl. by rewrite <-!app_assoc.
Qed.

Lemma extract_columns_ok (table_data : pydict) (cols : list pydict) :
  table_data !! "error" = None →
  field_dicts table_data "columns" = Some cols →
  forallb badges_ok cols = true →
  extract_columns table_data
  = Ok (PDict {[ "columns" := PList (column_summary <$> cols);
                 "partition_keys" := PList (cols ≫= partition_entries) ]}).
Proof.
  intros Herr Hcols Hbadges. unfold extract_columns.
  rewrite (dict_contains_false _ _ Herr), (field_dicts_get _ _ _ Hcols). simpl.
  by rewrite (column_loop _ [] [] Hbadges).
Qed.

Lemma is_partition_badge_spec (b : pydict) :
  is_partition_badge b = true ↔ b !! "badge_name" = Some (PStr "partition column").
Proof.
  unfold is_partition_badge, dict_get, py_eq_str.
  destruct (b !! "badge_name") as [v|]; simpl; [|done].
  destruct v; try done.
  rewrite String.eqb_eq. split; [by intros ->|by intros [= ->]].
Qed.

Lemma partition_entries_nonempty (c : pydict) :
  partition_entries c ≠ [] ↔
  ∃ b, b ∈ badges_of c ∧ b !! "badge_name" = Some (PStr "partition column").
Proof.
  unfold partition_entries, partition_badge_count.
  split.
  - intros Hne. destruct (List.filter is_partition_badge (badges_of c)) as [|b l] eqn:E;
      [done|].
    assert (In b (List.filter is_partition_badge (badges_of c))) as Hin
      by (rewrite E; by left).
    apply filter_In in Hin as [Hin Hb]. exists b. split.
    + by apply list_elem_of_In.
    + by apply is_partition_badge_spec.
  - intros (b & Hin & Hb).
    assert (In b (List.filter is_partition_badge (badges_of c))) as Hf.
    { apply filter_In. split; [by apply list_elem_of_In|by apply is_partition_badge_spec]. }
    destruct (List.filter is_partition_badge (badges_of c)); [done|]. done.
Qed.

Lemma elem_of_partition_entries (s : pyval) (c : pydict) :
  s ∈ partition_entries c ↔ s = column_summary c ∧ partition_entries c ≠ [].
Proof.
  unfold partition_entries. rewrite elem_of_replicate.
  split.
  - intros [-> Hn]. split; [done|]. by destruct (partition_badge_count c).
  - intros [-> Hn]. split; [done|]. intros E. by rewrite E in Hn.
Qed.

Lemma watermark_step_dict (w : pydict) from to :
  watermark_step (PDict w) (from, to)
  = Ok (if is_watermark "low_watermark" w then (watermark_bound w, to)
        else if is_watermark "high_watermark" w then (from, watermark_bound w)
        else (from, to)).
Proof.
  unfold watermark_step, is_watermark, watermark_bound. simpl.
  by repeat case_match.
Qed.

Lemma low_not_high (w : pydict) :
  is_watermark "low_watermark" w = true → is_watermark "high_watermark" w = false.
Proof.
  unfold is_watermark, py_eq_str. destruct (dict_get w "watermark_type" PNone); try done.
  rewrite String.eqb_eq. by intros ->.
Qed.

Lemma from_option_last_cons {A B} (g : A → B) (b : B) (x : A) (l : list A) :
  from_option g b (last (x :: l)) = from_option g (g x) (last l).
Proof. rewrite last_cons. by destruct (last l). Qed.

Lemma watermark_loop (ws : list pydict) from to :
  for_each (PDict <$> ws) watermark_step (from, to)
  = Ok (from_option watermark_bound from
          (last (List.filter (is_watermark "low_watermark") ws)),
        from_option watermark_bound to
          (last (List.filter (is_watermark "high_watermark") ws))).
Proof.
  revert from to. induction ws as [|w ws IH]; intros from to.
  - by rewrite fmap_nil, for_each_nil.
  - rewrite fmap_cons, for_each_cons, watermark_step_dict, res_bind_Ok. simpl.
    destruct (is_watermark "low_watermark" w) eqn:Hlow.
    + rewrite (low_not_high _ Hlow), IH. by rewrite from_option_last_cons.
    + destruct (is_watermark "high_watermark" w) eqn:Hhigh; rewrite IH; [|done].
      by rewrite from_option_last_cons.
Qed.

Lemma truthy_last_bound type ws :
  py_truthy (last_bound type ws) = negb (is_none (last_bound type ws)).
Proof.
  unfold last_bound. by destruct (last (List.filter (is_watermark type) ws)).
Qed.

Lemma is_none_last_bound type ws :
  is_none (last_bound type ws) = true ↔ List.filter (is_watermark type) ws = [].
Proof.
  unfold last_bound. destruct (List.filter (is_watermark type) ws) as [|w l] eqn:E.
  - done.
  - rewrite last_cons. by destruct (last l).
Qed.

Lemma extract_date_range_ok (table_data : pydict) (ws : list pydict) :
  table_data !! "error" = None →
  field_dicts table_data "watermarks" = Some ws →
  extract_date_range table_data
  = Ok (if is_none (last_bound "low_watermark" ws)
           && is_none (last_bound "high_watermark" ws)
        then PStr "table has no date range"
        else PDict {[ "from" := last_bound "low_watermark" ws;
                      "to" := last_bound "high_watermark" ws ]}).
Proof.
  intros Herr Hws. unfold extract_date_range.
  rewrite (dict_contains_false _ _ Herr), (field_dicts_get _ _ _ Hws). simpl.
  rewrite watermark_loop. simpl.
  fold (last_bound "low_watermark" ws) (last_bound "high_watermark" ws).
  rewrite !truthy_last_bound.
  by destruct (is_none (last_bound "low_watermark" ws)),
              (is_none (last_bound "high_watermark" ws)).
Qed.

Lemma owner_loop (os : list pydict) owners :
  for_each (PDict <$> os) owner_step owners = Ok (owners ++ (user_id_of <$> os)).
Proof.
  revert owners. induction os as [|o os IH]; intros owners.
  - by rewrite fmap_nil, for_each_nil, app_nil_r.
  - rewrite !fmap_cons, for_each_cons. unfold owner_step at 1. simpl.
    rewrite IH. by rewrite <-app_assoc.
Qed.

Lemma extract_owners_ok (table_data : pydict) (os : list pydict) :
  table_data !! "error" = None →
  field_dicts table_data "owners" = Some os →
  extract_owners table_data
  = Ok (match os with
        | [] => PStr "the table has no owners"
        | _ :: _ => PList (user_id_of <$> os)
        end).
Proof.
  intros Herr Hos. unfold extract_owners.
  rewrite (dict_contains_false _ _ Herr), (field_dicts_get _ _ _ Hos). simpl.
  rewrite owner_loop. simpl. by destruct os.
Qed.

Lemma extract_error (table_data : pydict) (e : pyval) :
  table_data !! "error" = Some e →
  extract_columns table_data = Ok (PDict {[ "error" := e ]})
  ∧ extract_date_range table_data = Ok (PDict {[ "error" := e ]})
  ∧ extract_owners table_data = Ok (PDict {[ "error" := e ]}).
Proof.
  intros He. unfold extract_columns, extract_date_range, extract_owners.
  rewrite (dict_contains_true _ _ _ He). unfold dict_getitem. by rewrite He.
Qed.

(** ** The catalog client *)

Section ClientFacts.

Variable BASE_URL : string.
Variable urlopen : string → http_outcome.

Lemma make_request_spec url w :
  make_request urlopen url w
  = (match urlopen url with
     | Body response => Ok response
     | URLError msg => Ok {[ "error" := PStr msg ]}
     | Uncaught e => Raise e
     end, after_request url w).
Proof. unfold make_request. cbv [mbind io_bind print urlopen_json]. by destruct (urlopen url). Qed.

Lemma get_metadata_spec db s t w :
  get_metadata BASE_URL urlopen db s t w
  = make_request urlopen (get_table_url BASE_URL db s t) w.
Proof. reflexivity. Qed.

Lemma dashboard_loop (ds : list pydict) acc :
  for_each (PDict <$> ds) dashboard_step acc = Ok (acc ++ (dashboard_ref <$> ds)).
Proof.
  revert acc. induction ds as [|d ds IH]; intros acc.
  - by rewrite fmap_nil, for_each_nil, app_nil_r.
  - rewrite !fmap_cons, for_each_cons. unfold dashboard_step at 1. simpl.
    rewrite IH. fold (dashboard_ref d). by rewrite <-app_assoc.
Qed.

Lemma get_lineage_valid db s t depth direction w :
  direction ∈ ["both"; "upstream"; "downstream"] →
  get_lineage BASE_URL urlopen db s t (Some depth) (Some direction) w
  = match make_request urlopen
            (lineage_url (get_table_url BASE_URL db s t) depth direction) w with
    | (Ok response, w') =>
        let upstream := dict_get response "upstream_entities" PNone in
        let downstream := dict_get response "downstream_entities" PNone in
        (Ok (if py_truthy upstream || py_truthy downstream
             then PDict {[ "upstream" := upstream; "downstream" := downstream ]}
             else PStr "Table has no lineage"), w')
    | (Raise e, w') => (Raise e, w')
    end.
Proof.
  intros Hdir. unfold get_lineage, lineage_url.
  cbn [from_option id]. rewrite (bool_decide_eq_true_2 _ Hdir).
  cbn [negb]. unfold mbind, io_bind.
  destruct (make_request _ _ w) as [[response|e] w']; [|done].
  by case_match.
Qed.

Lemma get_tables_dashboard_spec db s t w :
  get_tables_dashboard BASE_URL urlopen db s t w
  = match make_request urlopen (dashboard_url (get_table_url BASE_URL db s t)) w with
    | (Ok response, w') =>
        (raw ← py_iter (dict_get response "dashboards" PNone);
         dashboards ← for_each raw dashboard_step [];
         Ok (if (0 <? length dashboards)%nat then PList dashboards
             else PStr "table has no dashboard"), w')
    | (Raise e, w') => (Raise e, w')
    end.
Proof.
  unfold get_tables_dashboard, dashboard_url. cbv [mbind io_bind lift].
  destruct (make_request _ _ w) as [[response|e] w']; [|done].
  destruct (py_iter _) as [raw|e]; simpl; [|done].
  destruct (for_each raw dashboard_step []) as [ds|e]; simpl; [|done].
  by case_match.
Qed.

End ClientFacts.


(** ** Absent fields *)

Lemma dict_contains_insert_ne (d : pydict) k k' v :
  k ≠ k' → dict_contains (<[k := v]> d) k' = dict_contains d k'.
Proof. intros Hne. unfold dict_contains. by rewrite lookup_insert_ne. Qed.

Lemma dict_getitem_insert_ne (d : pydict) k k' v :
  k ≠ k' → dict_getitem (<[k := v]> d) k' = dict_getitem d k'.
Proof. intros Hne. unfold dict_getitem. by rewrite lookup_insert_ne. Qed.

Lemma dict_get_absent (d : pydict) k dflt :
  d !! k = None → dict_get d k dflt = dict_get (<[k := dflt]> d) k dflt.
Proof. intros H. unfold dict_get. by rewrite H, lookup_insert_eq. Qed.

Lemma extract_columns_absent (d : pydict) :
  d !! "columns" = None → extract_columns d = extract_columns (<["columns" := PList []]> d).
Proof.
  intros H. unfold extract_columns.
  rewrite dict_contains_insert_ne, dict_getitem_insert_ne by done.
  by rewrite <-dict_get_absent.
Qed.

Lemma extract_date_range_absent (d : pydict) :
  d !! "watermarks" = None →
  extract_date_range d = extract_date_range (<["watermarks" := PList []]> d).
Proof.
  intros H. unfold extract_date_range.
  rewrite dict_contains_insert_ne, dict_getitem_insert_ne by done.
  by rewrite <-dict_get_absent.
Qed.

Lemma extract_owners_absent (d : pydict) :
  d !! "owners" = None → extract_owners d = extract_owners (<["owners" := PList []]> d).
Proof.
  intros H. unfold extract_owners.
  rewrite dict_contains_insert_ne, dict_getitem_insert_ne by done.
  by rewrite <-dict_get_absent.
Qed.

Lemma truthy_seq_or_null (response : pydict) k :
  seq_or_null (dict_get response k PNone) = true →
  py_truthy (dict_get response k PNone) = false ↔ absent_or_empty response k.
Proof.
  unfold dict_get, absent_or_empty.
  destruct (response !! k) as [v|]; simpl; [|intuition].
  destruct v as [| | | | |l|]; simpl; try done; [intuition|].
  intros _. destruct l; simpl; intuition congruence.
Qed.

Lemma get_tables_dashboard_ok BASE_URL urlopen db s t w response ds :
  urlopen (dashboard_url (get_table_url BASE_URL db s t)) = Body response →
  response !! "dashboards" = Some (PList (PDict <$> ds)) →
  get_tables_dashboard BASE_URL urlopen db s t w
  = (Ok (match ds with
         | [] => PStr "table has no dashboard"
         | _ :: _ => PList (dashboard_ref <$> ds)
         end),
     after_request (dashboard_url (get_table_url BASE_URL db s t)) w).
Proof.
  intros Hbody Hds. rewrite get_tables_dashboard_spec, make_request_spec, Hbody.
  unfold dict_get. rewrite Hds. simpl. rewrite dashboard_loop. simpl.
  by destruct ds.
Qed.

(** ** The claims *)

(** C3: when the input mapping has the key ["error"], each of
    [extract_columns], [extract_date_range] and [extract_owners] returns
    [{"error": e}] with the same error value [e]; the data fields are not
    iterated: the result stays the same whatever is stored under any other
    key, also a value whose iteration would raise. *)
Theorem C3_error_marker_propagated (table_data : pydict) (e : pyval) :
  table_data !! "error" = Some e →
  extract_columns table_data = Ok (PDict {[ "error" := e ]})
  ∧ extract_date_range table_data = Ok (PDict {[ "error" := e ]})
  ∧ extract_owners table_data = Ok (PDict {[ "error" := e ]})
  ∧ ∀ (k : string) (v : pyval), k ≠ "error" →
      extract_columns (<[k := v]> table_data) = extract_columns table_data
      ∧ extract_date_range (<[k := v]> table_data) = extract_date_range table_data
      ∧ extract_owners (<[k := v]> table_data) = extract_owners table_data.
Proof.
  intros He. destruct (extract_error _ _ He) as (Hc & Hd & Ho).
  repeat split; try done.
  all: assert (<[k := v]> table_data !! "error" = Some e) as He'
    by (by rewrite lookup_insert_ne).
  all: destruct (extract_error _ _ He') as (Hc' & Hd' & Ho'); congruence.
Qed.

(** C4: on an error-free response whose [columns] are mappings with
    well-shaped [badges], [extract_columns] returns the summary
    [{name, type, description}] of every column in source order; a column
    contributes to [partition_keys] if and only if one of its badges has
    [badge_name] exactly ["partition column"], every entry it contributes is
    its own summary, and a column without a [badges] field contributes
    nothing. *)
Theorem C4_columns_and_partition_keys (table_data : pydict) (cols : list pydict) :
  table_data !! "error" = None →
  field_dicts table_data "columns" = Some cols →
  forallb badges_ok cols = true →
  extract_columns table_data
  = Ok (PDict {[ "columns" := PList (column_summary <$> cols);
                 "partition_keys" := PList (cols ≫= partition_entries) ]})
  ∧ (∀ c, partition_entries c ≠ [] ↔
          ∃ b, b ∈ badges_of c ∧ b !! "badge_name" = Some (PStr "partition column"))
  ∧ (∀ c s, s ∈ partition_entries c → s = column_summary c)
  ∧ (∀ s, s ∈ cols ≫= partition_entries ↔
          ∃ c b, c ∈ cols ∧ s = column_summary c ∧ b ∈ badges_of c
                 ∧ b !! "badge_name" = Some (PStr "partition column"))
  ∧ (∀ c, c !! "badges" = None → partition_entries c = []).
Proof.
  intros Herr Hcols Hbadges. split; [by apply extract_columns_ok|].
  split; [apply partition_entries_nonempty|].
  split; [intros c s Hs; by apply elem_of_partition_entries in Hs as [-> _]|].
  split.
  - intros s. rewrite list_elem_of_bind. split.
    + intros (c & Hs & Hc). apply elem_of_partition_entries in Hs as [-> Hne].
      apply partition_entries_nonempty in Hne as (b & Hb & Hname). by exists c, b.
    + intros (c & b & Hc & -> & Hb & Hname). exists c. split; [|done].
      apply elem_of_partition_entries. split; [done|].
      apply partition_entries_nonempty. by exists b.
  - intros c Hc. unfold partition_entries, partition_badge_count, badges_of, field_dicts.
    by rewrite Hc.
Qed.

(** C10: on such a response, a column with [k] badges named exactly
    ["partition column"] is appended to [partition_keys] [k] times, once per
    matching badge: its entries are [k] copies of its summary, so
    [partition_keys] has as many entries as there are matching badges. *)
Theorem C10_partition_key_per_badge (table_data : pydict) (cols : list pydict) :
  table_data !! "error" = None →
  field_dicts table_data "columns" = Some cols →
  forallb badges_ok cols = true →
  extract_columns table_data
  = Ok (PDict {[ "columns" := PList (column_summary <$> cols);
                 "partition_keys" :=
                   PList (cols ≫= λ c,
                     replicate (length (List.filter is_partition_badge (badges_of c)))
                               (column_summary c)) ]})
  ∧ length (cols ≫= partition_entries)
    = sum_list (partition_badge_count <$> cols).
Proof.
  intros Herr Hcols Hbadges. split; [by apply extract_columns_ok|].
  clear. induction cols as [|c cols IH]; [done|].
  rewrite bind_cons, length_app, fmap_cons, IH. simpl.
  unfold partition_entries at 1. by rewrite length_replicate.
Qed.

(** C5: on an error-free response whose [watermarks] are mappings,
    [extract_date_range] returns [from] = [{key, value}] of the last
    [low_watermark] entry ([None] without one) and [to] = that of the last
    [high_watermark] entry ([None] without one), and returns the sentinel
    ["table has no date range"] exactly when both are [None], that is when
    the list has no entry of either type, as on an empty list. *)
Theorem C5_date_range_last_wins (table_data : pydict) (ws : list pydict) :
  table_data !! "error" = None →
  field_dicts table_data "watermarks" = Some ws →
  extract_date_range table_data
  = Ok (if is_none (last_bound "low_watermark" ws)
           && is_none (last_bound "high_watermark" ws)
        then PStr "table has no date range"
        else PDict {[ "from" := last_bound "low_watermark" ws;
                      "to" := last_bound "high_watermark" ws ]})
  ∧ (∀ type, is_none (last_bound type ws) = true ↔
             List.filter (is_watermark type) ws = [])
  ∧ (extract_date_range table_data = Ok (PStr "table has no date range") ↔
       List.filter (is_watermark "low_watermark") ws = []
       ∧ List.filter (is_watermark "high_watermark") ws = [])
  ∧ (ws = [] → extract_date_range table_data = Ok (PStr "table has no date range")).
Proof.
  intros Herr Hws. pose proof (extract_date_range_ok _ _ Herr Hws) as H.
  split; [done|]. split; [intros; apply is_none_last_bound|].
  split.
  - rewrite H, <-!is_none_last_bound.
    destruct (is_none (last_bound "low_watermark" ws)),
             (is_none (last_bound "high_watermark" ws)); simpl; intuition congruence.
  - intros ->. by rewrite H.
Qed.

(** C8: on an error-free response whose [owners] are mappings,
    [extract_owners] returns the [user_id] of every entry in source order,
    duplicates kept, and the sentinel ["the table has no owners"] exactly
    when there is no entry; it never returns the empty list. *)
Theorem C8_owners_in_order (table_data : pydict) (os : list pydict) :
  table_data !! "error" = None →
  field_dicts table_data "owners" = Some os →
  extract_owners table_data
  = Ok (match os with
        | [] => PStr "the table has no owners"
        | _ :: _ => PList (user_id_of <$> os)
        end)
  ∧ (extract_owners table_data = Ok (PStr "the table has no owners") ↔ os = [])
  ∧ extract_owners table_data ≠ Ok (PList []).
Proof.
  intros Herr Hos. rewrite (extract_owners_ok _ _ Herr Hos).
  split; [done|]. destruct os as [|o os]; [intuition congruence|].
  rewrite fmap_cons. intuition congruence.
Qed.

Lemma py_iter_not_iterable (v : pyval) :
  not_iterable v = true → py_iter v = Raise TypeError.
Proof. by destruct v. Qed.

Lemma dict_get_insert_eq (d : pydict) k v dflt :
  dict_get (<[k := v]> d) k dflt = v.
Proof. unfold dict_get. by rewrite lookup_insert_eq. Qed.

Lemma extract_not_iterable (d : pydict) (v : pyval) :
  d !! "error" = None →
  not_iterable v = true →
  extract_columns (<["columns" := v]> d) = Raise TypeError
  ∧ extract_date_range (<["watermarks" := v]> d) = Raise TypeError
  ∧ extract_owners (<["owners" := v]> d) = Raise TypeError.
Proof.
  intros Herr Hv. unfold extract_columns, extract_date_range, extract_owners.
  rewrite !dict_contains_insert_ne, !(dict_contains_false _ _ Herr) by done.
  by rewrite !dict_get_insert_eq, (py_iter_not_iterable _ Hv).
Qed.

(** C1, as the code has it: on a mapping whose [columns], [watermarks] and
    [owners] fields (and the [badges] field of every column) are each absent
    or a list of mappings, [extract_columns], [extract_date_range] and
    [extract_owners] return without raising, and an absent field gives what
    an empty list gives; [get_tables_dashboard] returns without raising when
    the response has a [dashboards] field that is a list of mappings.  A
    [columns], [watermarks] or [owners] field that is present but null, a
    boolean or a number is not taken as an empty collection: on a mapping
    without the ["error"] key, iterating it raises [TypeError]. *)
Theorem C1_normalizers_return_on_shaped_input
    (table_data : pydict) (cols ws os : list pydict)
    (BASE_URL : string) (urlopen : string → http_outcome)
    (db s t : string) (w : world) (response : pydict) (ds : list pydict) :
  field_dicts table_data "columns" = Some cols →
  forallb badges_ok cols = true →
  field_dicts table_data "watermarks" = Some ws →
  field_dicts table_data "owners" = Some os →
  urlopen (dashboard_url (get_table_url BASE_URL db s t)) = Body response →
  response !! "dashboards" = Some (PList (PDict <$> ds)) →
  is_ok (extract_columns table_data) = true
  ∧ is_ok (extract_date_range table_data) = true
  ∧ is_ok (extract_owners table_data) = true
  ∧ is_ok (get_tables_dashboard BASE_URL urlopen db s t w).1 = true
  ∧ (table_data !! "columns" = None →
       extract_columns table_data
       = extract_columns (<["columns" := PList []]> table_data))
  ∧ (table_data !! "watermarks" = None →
       extract_date_range table_data
       = extract_date_range (<["watermarks" := PList []]> table_data))
  ∧ (table_data !! "owners" = None →
       extract_owners table_data
       = extract_owners (<["owners" := PList []]> table_data))
  ∧ (∀ (d : pydict) (v : pyval),
       d !! "error" = None →
       not_iterable v = true →
       extract_columns (<["columns" := v]> d) = Raise TypeError
       ∧ extract_date_range (<["watermarks" := v]> d) = Raise TypeError
       ∧ extract_owners (<["owners" := v]> d) = Raise TypeError).
Proof.
  intros Hcols Hbadges Hws Hos Hbody Hds.
  pose proof extract_not_iterable as Hnull.
  pose proof (extract_columns_absent table_data) as Hc.
  pose proof (extract_date_range_absent table_data) as Hd.
  pose proof (extract_owners_absent table_data) as Ho.
  assert (is_ok (extract_columns table_data) = true
          ∧ is_ok (extract_date_range table_data) = true
          ∧ is_ok (extract_owners table_data) = true) as (? & ? & ?).
  { destruct (table_data !! "error") as [e|] eqn:Herr.
    - by destruct (extract_error _ _ Herr) as (-> & -> & ->).
    - by rewrite (extract_columns_ok _ _ Herr Hcols Hbadges),
        (extract_date_range_ok _ _ Herr Hws), (extract_owners_ok _ _ Herr Hos). }
  rewrite (get_tables_dashboard_ok _ _ _ _ _ _ _ _ Hbody Hds).
  do 7 (split; [done|]). exact Hnull.
Qed.

(** C1 as stated fails: a null [columns] field is not taken as an empty
    collection, iterating it raises [TypeError]. *)
Lemma C1_null_columns_raise :
  extract_columns {[ "columns" := PNone ]} = Raise TypeError.
Proof. reflexivity. Qed.

Lemma C1_witness :
  is_ok (extract_columns sample_table) = true
  ∧ is_ok (extract_date_range sample_table) = true
  ∧ is_ok (extract_owners sample_table) = true
  ∧ is_ok (get_tables_dashboard "http://localhost:5000"
             (catalog_serving sample_dashboard_response) "hive" "core" "orders" w0).1
    = true.
Proof.
  pose proof (C1_normalizers_return_on_shaped_input
    sample_table sample_columns sample_watermarks sample_owners
    "http://localhost:5000" (catalog_serving sample_dashboard_response)
    "hive" "core" "orders" w0 sample_dashboard_response sample_dashboards
    eq_refl eq_refl eq_refl eq_refl eq_refl eq_refl) as (H1 & H2 & H3 & H4 & _).
  exact (conj H1 (conj H2 (conj H3 H4))).
Defined.

(** C2 fails on the code: with the catalog down, [get_lineage] reports the
    absence sentinel ["Table has no lineage"] and [get_tables_dashboard]
    raises [TypeError], where [get_table_owners] on the same failure returns
    the structured [{"error": ...}]. *)
Theorem C2_failed_fetch_reported_as_absence :
  get_lineage "http://localhost:5000" catalog_down "hive" "core" "orders" None None w0
  = (Ok (PStr "Table has no lineage"),
     after_request
       "http://localhost:5000/table/hive://gold.core/orders/lineage?depth=1&direction=both"
       w0)
  ∧ (get_tables_dashboard "http://localhost:5000" catalog_down "hive" "core" "orders" w0).1
    = Raise TypeError
  ∧ (get_table_owners "http://localhost:5000" catalog_down "hive" "core" "orders" w0).1
    = Ok (PDict {[ "error" := PStr "HTTP Error 404: NOT FOUND" ]}).
Proof. repeat split; vm_compute; reflexivity. Qed.

Lemma C3_witness :
  sample_failure !! "error" = Some (PStr "HTTP Error 404: NOT FOUND")
  ∧ extract_columns sample_failure
    = Ok (PDict {[ "error" := PStr "HTTP Error 404: NOT FOUND" ]}).
Proof.
  split; [reflexivity|].
  exact (proj1 (C3_error_marker_propagated sample_failure
                  (PStr "HTTP Error 404: NOT FOUND") eq_refl)).
Defined.

Lemma C4_witness :
  extract_columns sample_table
  = Ok (PDict {[ "columns" := PList (column_summary <$> sample_columns);
                 "partition_keys" := PList (sample_columns ≫= partition_entries) ]}).
Proof.
  exact (proj1 (C4_columns_and_partition_keys sample_table sample_columns
                  eq_refl eq_refl eq_refl)).
Defined.

Lemma C10_witness :
  length (sample_columns ≫= partition_entries)
  = sum_list (partition_badge_count <$> sample_columns).
Proof.
  exact (proj2 (C10_partition_key_per_badge sample_table sample_columns
                  eq_refl eq_refl eq_refl)).
Defined.

Lemma C5_witness :
  extract_date_range sample_table
  = Ok (if is_none (last_bound "low_watermark" sample_watermarks)
           && is_none (last_bound "high_watermark" sample_watermarks)
        then PStr "table has no date range"
        else PDict {[ "from" := last_bound "low_watermark" sample_watermarks;
                      "to" := last_bound "high_watermark" sample_watermarks ]}).
Proof.
  exact (proj1 (C5_date_range_last_wins sample_table sample_watermarks eq_refl eq_refl)).
Defined.

Lemma C8_witness :
  extract_owners sample_table = Ok (PList (user_id_of <$> sample_owners)).
Proof.
  exact (proj1 (C8_owners_in_order sample_table sample_owners eq_refl eq_refl)).
Defined.

Section ClientClaims.

Variable BASE_URL : string.
Variable urlopen : string → http_outcome.

(** C6: for every direction outside ["both"], ["upstream"], ["downstream"]
    and all other arguments, [get_lineage], and so [get_table_lineage_info],
    returns the structured validation error and leaves the world as it was:
    no URL is opened and nothing is printed. *)
Theorem C6_invalid_direction_rejected (db s t : string) (depth : option Z)
    (direction : string) (w : world) :
  direction ∉ ["both"; "upstream"; "downstream"] →
  get_lineage BASE_URL urlopen db s t depth (Some direction) w
  = (Ok (PDict {[ "error" :=
       PStr "Invalid direction. Must be one of: both, upstream, downstream" ]}), w)
  ∧ get_table_lineage_info BASE_URL urlopen db s t depth (Some direction) w
    = (Ok (PDict {[ "error" :=
         PStr "Invalid direction. Must be one of: both, upstream, downstream" ]}), w)
  ∧ requests (get_table_lineage_info BASE_URL urlopen db s t depth (Some direction) w).2
    = requests w.
Proof.
  intros Hdir.
  assert (∀ depth, get_lineage BASE_URL urlopen db s t depth (Some direction) w
    = (Ok (PDict {[ "error" :=
         PStr "Invalid direction. Must be one of: both, upstream, downstream" ]}), w))
    as Hl.
  { intros d. unfold get_lineage. cbn [from_option id].
    by rewrite (bool_decide_eq_false_2 _ Hdir). }
  split; [apply Hl|].
  unfold get_table_lineage_info. cbn [from_option id]. by rewrite Hl.
Qed.

(** C7: for a direction of the enumeration and a request answered with a
    response, [get_lineage] returns [{upstream, downstream}] holding the
    response's [upstream_entities] and [downstream_entities] ([None] when
    missing), except that it returns ["Table has no lineage"] exactly when
    both are falsy; for fields that are sequences or null, that is exactly
    when each is missing, null or an empty list. *)
Theorem C7_lineage_passthrough (db s t : string) (depth : Z) (direction : string)
    (response : pydict) (w : world) :
  direction ∈ ["both"; "upstream"; "downstream"] →
  urlopen (lineage_url (get_table_url BASE_URL db s t) depth direction) = Body response →
  let upstream := dict_get response "upstream_entities" PNone in
  let downstream := dict_get response "downstream_entities" PNone in
  let result := get_lineage BASE_URL urlopen db s t (Some depth) (Some direction) w in
  result
  = (Ok (if py_truthy upstream || py_truthy downstream
         then PDict {[ "upstream" := upstream; "downstream" := downstream ]}
         else PStr "Table has no lineage"),
     after_request (lineage_url (get_table_url BASE_URL db s t) depth direction) w)
  ∧ (result.1 = Ok (PStr "Table has no lineage") ↔
       py_truthy upstream = false ∧ py_truthy downstream = false)
  ∧ (seq_or_null upstream = true → seq_or_null downstream = true →
       (result.1 = Ok (PStr "Table has no lineage") ↔
          absent_or_empty response "upstream_entities"
          ∧ absent_or_empty response "downstream_entities")).
Proof.
  intros Hdir Hbody upstream downstream result.
  assert (result
    = (Ok (if py_truthy upstream || py_truthy downstream
           then PDict {[ "upstream" := upstream; "downstream" := downstream ]}
           else PStr "Table has no lineage"),
       after_request (lineage_url (get_table_url BASE_URL db s t) depth direction) w))
    as Hres.
  { unfold result. by rewrite (get_lineage_valid _ _ _ _ _ _ _ _ Hdir),
      make_request_spec, Hbody. }
  assert (result.1 = Ok (PStr "Table has no lineage") ↔
            py_truthy upstream = false ∧ py_truthy downstream = false) as Hiff.
  { rewrite Hres. simpl.
    destruct (py_truthy upstream), (py_truthy downstream); simpl; intuition congruence. }
  split; [done|]. split; [done|].
  intros Hup Hdown. rewrite Hiff.
  unfold upstream, downstream.
  by rewrite (truthy_seq_or_null _ _ Hup), (truthy_seq_or_null _ _ Hdown).
Qed.

(** C9: each metadata tool is one fetch followed by one normalizer, whose
    output it returns as it is: [get_table_columns] is [extract_columns]
    after [get_metadata], [get_table_date_range] is [extract_date_range]
    after it, [get_table_owners] is [extract_owners] after it, each opening
    the table's URL once; the lineage tool passes its arguments on to
    [get_lineage], with [depth = 1] and [direction = "both"] for those left
    out. *)
Theorem C9_tools_compose_fetch_and_normalizer (db s t : string) :
  get_table_columns BASE_URL urlopen db s t
  = fetch_then_normalize (get_metadata BASE_URL urlopen db s t) extract_columns
  ∧ get_table_date_range BASE_URL urlopen db s t
    = fetch_then_normalize (get_metadata BASE_URL urlopen db s t) extract_date_range
  ∧ get_table_owners BASE_URL urlopen db s t
    = fetch_then_normalize (get_metadata BASE_URL urlopen db s t) extract_owners
  ∧ (∀ normalize w,
       requests (fetch_then_normalize (get_metadata BASE_URL urlopen db s t) normalize w).2
       = requests w ++ [get_table_url BASE_URL db s t])
  ∧ get_table_lineage_info BASE_URL urlopen db s t None None
    = get_lineage BASE_URL urlopen db s t (Some 1%Z) (Some "both")
  ∧ (∀ depth direction,
       get_table_lineage_info BASE_URL urlopen db s t (Some depth) (Some direction)
       = get_lineage BASE_URL urlopen db s t (Some depth) (Some direction))
  ∧ get_table_dasboard_info BASE_URL urlopen db s t
    = get_tables_dashboard BASE_URL urlopen db s t.
Proof.
  repeat split.
  intros normalize w. unfold fetch_then_normalize.
  rewrite get_metadata_spec, make_request_spec.
  by destruct (urlopen _).
Qed.

End ClientClaims.

Lemma C6_witness :
  ("sideways" ∉ ["both"; "upstream"; "downstream"])
  ∧ get_table_lineage_info "http://localhost:5000" catalog_down "hive" "core" "orders"
      None (Some "sideways") w0
    = (Ok (PDict {[ "error" :=
         PStr "Invalid direction. Must be one of: both, upstream, downstream" ]}), w0).
Proof.
  assert ("sideways" ∉ ["both"; "upstream"; "downstream"]) as H
    by (refine (bool_decide_unpack _ _); vm_compute; exact I).
  split; [exact H|].
  exact (proj1 (proj2 (C6_invalid_direction_rejected "http://localhost:5000"
    catalog_down "hive" "core" "orders" None "sideways" w0 H))).
Defined.

Lemma C7_witness :
  fst (get_lineage "http://localhost:5000" (catalog_serving sample_lineage_response)
         "hive" "core" "orders" (Some 1%Z) (Some "both") w0)
  = Ok (PDict {[ "upstream" := PList [PDict {[ "key" := PStr "hive://gold.core/raw" ]}];
                 "downstream" := PList [] ]}).
Proof.
  assert ("both" ∈ ["both"; "upstream"; "downstream"]) as Hdir
    by (refine (bool_decide_unpack _ _); vm_compute; exact I).
  pose proof (C7_lineage_passthrough "http://localhost:5000"
    (catalog_serving sample_lineage_response) "hive" "core" "orders" 1%Z "both"
    sample_lineage_response w0 Hdir eq_refl) as [H _].
  exact (f_equal fst H).
Defined.

(** ** The examples of the specification *)

Example different_case_is_no_partition_column :
  extract_columns
    {[ "columns" := PList [
         PDict {[ "name" := PStr "ds";
                  "badges" := PList [PDict {[ "badge_name" := PStr "Partition Column" ]}] ]} ] ]}
  = Ok (PDict {[ "columns" := PList [
           PDict {[ "name" := PStr "ds"; "type" := PNone; "description" := PNone ]} ];
         "partition_keys" := PList [] ]}).
Proof. vm_compute. reflexivity. Qed.

Example badge_twice_is_partition_key_twice :
  extract_columns
    {[ "columns" := PList [
         PDict {[ "name" := PStr "ds";
                  "badges" := PList [PDict {[ "badge_name" := PStr "partition column" ]};
                                     PDict {[ "badge_name" := PStr "partition column" ]}] ]} ] ]}
  = Ok (PDict {[ "columns" := PList [
           PDict {[ "name" := PStr "ds"; "type" := PNone; "description" := PNone ]} ];
         "partition_keys" := PList [
           PDict {[ "name" := PStr "ds"; "type" := PNone; "description" := PNone ]};
           PDict {[ "name" := PStr "ds"; "type" := PNone; "description" := PNone ]} ] ]}).
Proof. vm_compute. reflexivity. Qed.

Example date_range_of_low_and_high :
  extract_date_range
    {[ "watermarks" := PList [
         PDict {[ "watermark_type" := PStr "low_watermark"; "partition_key" := PStr "dt";
                  "partition_value" := PStr "2020-01-01" ]};
         PDict {[ "watermark_type" := PStr "high_watermark"; "partition_key" := PStr "dt";
                  "partition_value" := PStr "2020-12-31" ]} ] ]}
  = Ok (PDict {[ "from" := PDict {[ "key" := PStr "dt"; "value" := PStr "2020-01-01" ]};
                 "to" := PDict {[ "key" := PStr "dt"; "value" := PStr "2020-12-31" ]} ]}).
Proof. vm_compute. reflexivity. Qed.

Example date_range_of_no_watermarks :
  extract_date_range {[ "watermarks" := PList [] ]} = Ok (PStr "table has no date range").
Proof. reflexivity. Qed.

Example owners_empty_and_duplicated :
  extract_owners {[ "owners" := PList [] ]} = Ok (PStr "the table has no owners")
  ∧ extract_owners {[ "owners" := PList [PDict {[ "user_id" := PStr "a" ]};
                                         PDict {[ "user_id" := PStr "a" ]}] ]}
    = Ok (PList [PStr "a"; PStr "a"]).
Proof. split; reflexivity. Qed.

Example lineage_empty_and_null :
  fst (get_lineage "http://localhost:5000"
         (catalog_serving {[ "upstream_entities" := PList []; "downstream_entities" := PNone ]})
         "hive" "core" "orders" None None w0)
  = Ok (PStr "Table has no lineage").
Proof. vm_compute. reflexivity. Qed.

Example dashboards_missing_field_raises :
  fst (get_tables_dashboard "http://localhost:5000" (catalog_serving ∅)
         "hive" "core" "orders" w0)
  = Raise TypeError.
Proof. vm_compute. reflexivity. Qed.

Example dashboards_in_order :
  fst (get_tables_dashboard "http://localhost:5000"
         (catalog_serving sample_dashboard_response) "hive" "core" "orders" w0)
  = Ok (PList [PDict {[ "url" := PStr "http://bi/1"; "dashboard_name" := PStr "Sales";
                        "collection_name" := PStr "Finance" ]}]).
Proof. vm_compute. reflexivity. Qed.

(** ** Loops over arbitrary values *)

Lemma py_iter_raises (v : pyval) (e : pyexc) : py_iter v = Raise e → e = TypeError.
Proof. destruct v; simpl; congruence. Qed.

Lemma py_get_not_dict (v : pyval) k dflt :
  is_dict v = false → py_get v k dflt = Raise AttributeError.
Proof. by destruct v. Qed.

Lemma dicts_of_cons_dict (d : pydict) l :
  dicts_of (PDict d :: l) = (d ::.) <$> dicts_of l.
Proof. reflexivity. Qed.

Lemma dicts_of_cons_other v l : is_dict v = false → dicts_of (v :: l) = None.
Proof. by destruct v. Qed.

(** A loop whose body needs a mapping raises [AttributeError] on a list
    that is not made of mappings. *)
Lemma for_each_not_dicts {S} (body : pyval → S → res S) (l : list pyval) (s : S) :
  (∀ d s, is_ok (body (PDict d) s) = true) →
  (∀ v s, is_dict v = false → body v s = Raise AttributeError) →
  dicts_of l = None →
  for_each l body s = Raise AttributeError.
Proof.
  intros Hdict Hother. revert s. induction l as [|v l IH]; intros s Hl; [done|].
  rewrite for_each_cons. destruct (is_dict v) eqn:Hv.
  - destruct v; try done. rewrite dicts_of_cons_dict in Hl.
    destruct (dicts_of l) eqn:El; [done|].
    specialize (Hdict d s). destruct (body (PDict d) s) as [s'|]; [|done].
    rewrite res_bind_Ok. by apply IH.
  - by rewrite (Hother _ _ Hv).
Qed.

Lemma owner_step_ok (d : pydict) s : is_ok (owner_step (PDict d) s) = true.
Proof. reflexivity. Qed.

Lemma owner_step_other v s : is_dict v = false → owner_step v s = Raise AttributeError.
Proof. intros Hv. by destruct v. Qed.

Lemma watermark_step_ok (d : pydict) s : is_ok (watermark_step (PDict d) s) = true.
Proof. destruct s. rewrite watermark_step_dict. done. Qed.

Lemma watermark_step_other v s :
  is_dict v = false → watermark_step v s = Raise AttributeError.
Proof. intros Hv. destruct s. by destruct v. Qed.

Lemma badge_step_ok ci (d : pydict) s : is_ok (badge_step ci (PDict d) s) = true.
Proof. by rewrite badge_step_dict. Qed.

Lemma badge_step_other ci v s :
  is_dict v = false → badge_step ci v s = Raise AttributeError.
Proof. intros Hv. by destruct v. Qed.

Lemma dashboard_step_ok (d : pydict) s : is_ok (dashboard_step (PDict d) s) = true.
Proof. reflexivity. Qed.

Lemma dashboard_step_other v s :
  is_dict v = false → dashboard_step v s = Raise AttributeError.
Proof. intros Hv. by destruct v. Qed.

Lemma field_dicts_iter (d : pydict) k xs :
  field_dicts d k = Some xs → iter_dicts (dict_get d k (PList [])) = Some xs.
Proof.
  intros H. rewrite (field_dicts_get _ _ _ H). unfold iter_dicts. simpl.
  apply dicts_of_fmap.
Qed.

(** One column, whatever it is. *)
Lemma column_step_any (v : pyval) cs pks :
  column_step v (cs, pks)
  = match v with
    | PDict c =>
        match py_iter (dict_get c "badges" (PList [])) with
        | Ok l =>
            match dicts_of l with
            | Some bs =>
                Ok (cs ++ [column_summary c],
                    pks ++ replicate (length (List.filter is_partition_badge bs))
                                     (column_summary c))
            | None => Raise AttributeError
            end
        | Raise _ => Raise TypeError
        end
    | _ => Raise AttributeError
    end.
Proof.
  destruct v as [| | | | | |c]; try done.
  unfold column_step. simpl. fold (column_summary c).
  destruct (py_iter (dict_get c "badges" (PList []))) as [l|e] eqn:Hit; simpl.
  - destruct (dicts_of l) as [bs|] eqn:Hl.
    + by rewrite (dicts_of_Some _ _ Hl), badge_loop.
    + by rewrite (for_each_not_dicts _ _ _
        (badge_step_ok (column_summary c)) (badge_step_other (column_summary c)) Hl).
  - by rewrite (py_iter_raises _ _ Hit).
Qed.

Lemma column_loop_readable (l : list pyval) (cols : list pydict) cs pks :
  readable_columns l = Some cols →
  for_each l column_step (cs, pks)
  = Ok (cs ++ (column_summary <$> cols), pks ++ (cols ≫= partition_entries_iter)).
Proof.
  unfold readable_columns. destruct (dicts_of l) as [cols'|] eqn:Hl; [|done].
  destruct (forallb badges_iter_ok cols') eqn:Hok; [|done]. intros [= ->].
  rewrite (dicts_of_Some _ _ Hl). clear l Hl. revert cs pks.
  induction cols as [|c cols IH]; intros cs pks.
  - by rewrite fmap_nil, for_each_nil, !app_nil_r.
  - simpl in Hok. apply andb_prop in Hok as [Hc Hok].
    rewrite !fmap_cons, for_each_cons, column_step_any, bind_cons.
    unfold badges_iter_ok, badges_iter, iter_dicts in Hc.
    destruct (py_iter (dict_get c "badges" (PList []))) as [bl|] eqn:Hit; [|done].
    destruct (dicts_of bl) as [bs|] eqn:Hbl; [|done].
    assert (partition_entries_iter c
            = replicate (length (List.filter is_partition_badge bs)) (column_summary c))
      as -> by (unfold partition_entries_iter, badges_iter, iter_dicts;
                by rewrite Hit, Hbl).
    rewrite res_bind_Ok, (IH Hok). simpl. by rewrite <-!app_assoc.
Qed.

Lemma column_loop_unreadable (l : list pyval) cs pks :
  readable_columns l = None →
  ∃ e, for_each l column_step (cs, pks) = Raise e ∧ loop_error e.
Proof.
  revert cs pks. induction l as [|v l IH]; intros cs pks Hl; [done|].
  rewrite for_each_cons, column_step_any.
  destruct v as [| | | | | |c]; try (eexists; split; [done|by right]).
  unfold readable_columns in Hl, IH. rewrite dicts_of_cons_dict in Hl.
  destruct (py_iter (dict_get c "badges" (PList []))) as [bl|] eqn:Hit;
    [|eexists; split; [done|by left]].
  destruct (dicts_of bl) as [bs|] eqn:Hbl; [|eexists; split; [done|by right]].
  rewrite res_bind_Ok. apply IH.
  destruct (dicts_of l) as [cols|]; [|done]. simpl in Hl.
  unfold badges_iter_ok at 1, badges_iter, iter_dicts in Hl.
  rewrite Hit, Hbl in Hl. simpl in Hl. by destruct (forallb badges_iter_ok cols).
Qed.

(** ** The normalizers on mappings of any shape *)

Lemma extract_owners_any (table_data : pydict) :
  table_data !! "error" = None →
  extract_owners table_data
  = match py_iter (dict_get table_data "owners" (PList [])) with
    | Ok l =>
        match dicts_of l with
        | Some [] => Ok (PStr "the table has no owners")
        | Some os => Ok (PList (user_id_of <$> os))
        | None => Raise AttributeError
        end
    | Raise _ => Raise TypeError
    end.
Proof.
  intros Herr. unfold extract_owners. rewrite (dict_contains_false _ _ Herr).
  destruct (py_iter _) as [l|e] eqn:Hit; simpl.
  - destruct (dicts_of l) as [os|] eqn:Hl.
    + rewrite (dicts_of_Some _ _ Hl), owner_loop. simpl. by destruct os.
    + by rewrite (for_each_not_dicts _ _ _ owner_step_ok owner_step_other Hl).
  - by rewrite (py_iter_raises _ _ Hit).
Qed.

Lemma extract_date_range_any (table_data : pydict) :
  table_data !! "error" = None →
  extract_date_range table_data
  = match py_iter (dict_get table_data "watermarks" (PList [])) with
    | Ok l =>
        match dicts_of l with
        | Some ws =>
            Ok (if is_none (last_bound "low_watermark" ws)
                   && is_none (last_bound "high_watermark" ws)
                then PStr "table has no date range"
                else PDict {[ "from" := last_bound "low_watermark" ws;
                              "to" := last_bound "high_watermark" ws ]})
        | None => Raise AttributeError
        end
    | Raise _ => Raise TypeError
    end.
Proof.
  intros Herr. unfold extract_date_range. rewrite (dict_contains_false _ _ Herr).
  destruct (py_iter _) as [l|e] eqn:Hit; simpl.
  - destruct (dicts_of l) as [ws|] eqn:Hl.
    + rewrite (dicts_of_Some _ _ Hl), watermark_loop. simpl.
      fold (last_bound "low_watermark" ws) (last_bound "high_watermark" ws).
      rewrite !truthy_last_bound.
      by destruct (is_none (last_bound "low_watermark" ws)),
                  (is_none (last_bound "high_watermark" ws)).
    + by rewrite (for_each_not_dicts _ _ _ watermark_step_ok watermark_step_other Hl).
  - by rewrite (py_iter_raises _ _ Hit).
Qed.

Lemma extract_columns_any (table_data : pydict) :
  table_data !! "error" = None →
  match py_iter (dict_get table_data "columns" (PList [])) with
  | Ok l =>
      match readable_columns l with
      | Some cols =>
          extract_columns table_data
          = Ok (PDict {[ "columns" := PList (column_summary <$> cols);
                         "partition_keys" := PList (cols ≫= partition_entries_iter) ]})
      | None => ∃ e, extract_columns table_data = Raise e ∧ loop_error e
      end
  | Raise _ => extract_columns table_data = Raise TypeError
  end.
Proof.
  intros Herr. unfold extract_columns. rewrite (dict_contains_false _ _ Herr).
  destruct (py_iter _) as [l|e] eqn:Hit; simpl.
  - destruct (readable_columns l) as [cols|] eqn:Hl.
    + by rewrite (column_loop_readable _ _ [] [] Hl).
    + destruct (column_loop_unreadable _ [] [] Hl) as (e & -> & He). by exists e.
  - by rewrite (py_iter_raises _ _ Hit).
Qed.

Lemma last_bound_cases type ws :
  last_bound type ws = PNone
  ∨ ∃ w, last_bound type ws = watermark_bound w.
Proof.
  unfold last_bound. destruct (last (List.filter (is_watermark type) ws)) as [w|];
    [right; by exists w|by left].
Qed.

Lemma dict_contains_delete_ne (d : pydict) k k' :
  k ≠ k' → dict_contains (delete k d) k' = dict_contains d k'.
Proof. intros Hne. unfold dict_contains. by rewrite lookup_delete_ne. Qed.

Lemma dict_getitem_delete_ne (d : pydict) k k' :
  k ≠ k' → dict_getitem (delete k d) k' = dict_getitem d k'.
Proof. intros Hne. unfold dict_getitem. by rewrite lookup_delete_ne. Qed.

Lemma dict_get_insert_ne (d : pydict) k k' v dflt :
  k ≠ k' → dict_get (<[k := v]> d) k' dflt = dict_get d k' dflt.
Proof. intros Hne. unfold dict_get. by rewrite lookup_insert_ne. Qed.

Lemma dict_get_delete_ne (d : pydict) k k' dflt :
  k ≠ k' → dict_get (delete k d) k' dflt = dict_get d k' dflt.
Proof. intros Hne. unfold dict_get. by rewrite lookup_delete_ne. Qed.

Ltac other_key :=
  rewrite ?dict_contains_insert_ne, ?dict_getitem_insert_ne, ?dict_get_insert_ne,
    ?dict_contains_delete_ne, ?dict_getitem_delete_ne, ?dict_get_delete_ne by done.

(** ** Further properties of the normalizers *)

(** X1: each normalizer reads the ["error"] key and its own field only:
    storing any value under another key, or deleting another key, leaves
    its result as it was. *)
Theorem X1_normalizers_read_their_field_only (table_data : pydict) (k : string)
    (v : pyval) :
  k ≠ "error" →
  (k ≠ "columns" →
     extract_columns (<[k := v]> table_data) = extract_columns table_data
     ∧ extract_columns (delete k table_data) = extract_columns table_data)
  ∧ (k ≠ "watermarks" →
       extract_date_range (<[k := v]> table_data) = extract_date_range table_data
       ∧ extract_date_range (delete k table_data) = extract_date_range table_data)
  ∧ (k ≠ "owners" →
       extract_owners (<[k := v]> table_data) = extract_owners table_data
       ∧ extract_owners (delete k table_data) = extract_owners table_data).
Proof.
  intros Herr. split; [|split]; intros Hk; split.
  all: unfold extract_columns, extract_date_range, extract_owners; by other_key.
Qed.

Lemma X1_witness :
  extract_owners (<["description" := PStr "orders"]> sample_table)
  = extract_owners sample_table.
Proof.
  assert ("description" ≠ "error") as H1 by done.
  assert ("description" ≠ "owners") as H2 by done.
  exact (proj1 (proj2 (proj2 (X1_normalizers_read_their_field_only
    sample_table "description" (PStr "orders") H1)) H2)).
Defined.

(** X2: on an error-free mapping of any shape, [extract_owners] raises
    [TypeError] when the [owners] field cannot be iterated, raises
    [AttributeError] when it can but some element is no mapping, and
    otherwise returns the sentinel for no element and the list of
    [user_id]s for one or more. *)
Theorem X2_extract_owners_on_any_shape (table_data : pydict) :
  table_data !! "error" = None →
  extract_owners table_data
  = match py_iter (dict_get table_data "owners" (PList [])) with
    | Ok l =>
        match dicts_of l with
        | Some [] => Ok (PStr "the table has no owners")
        | Some os => Ok (PList (user_id_of <$> os))
        | None => Raise AttributeError
        end
    | Raise _ => Raise TypeError
    end.
Proof. apply extract_owners_any. Qed.

Lemma X2_witness : extract_owners sample_bad_owners = Raise AttributeError.
Proof. exact (X2_extract_owners_on_any_shape sample_bad_owners eq_refl). Defined.

(** X3: on an error-free mapping of any shape, [extract_date_range] raises
    [TypeError] when the [watermarks] field cannot be iterated, raises
    [AttributeError] when it can but some element is no mapping, and
    otherwise returns the last low and high bounds, or the sentinel when
    there is neither. *)
Theorem X3_extract_date_range_on_any_shape (table_data : pydict) :
  table_data !! "error" = None →
  extract_date_range table_data
  = match py_iter (dict_get table_data "watermarks" (PList [])) with
    | Ok l =>
        match dicts_of l with
        | Some ws =>
            Ok (if is_none (last_bound "low_watermark" ws)
                   && is_none (last_bound "high_watermark" ws)
                then PStr "table has no date range"
                else PDict {[ "from" := last_bound "low_watermark" ws;
                              "to" := last_bound "high_watermark" ws ]})
        | None => Raise AttributeError
        end
    | Raise _ => Raise TypeError
    end.
Proof. apply extract_date_range_any. Qed.

Lemma X3_witness : extract_date_range sample_bad_watermarks = Raise TypeError.
Proof. exact (X3_extract_date_range_on_any_shape sample_bad_watermarks eq_refl). Defined.

(** X4: on an error-free mapping of any shape, [extract_columns] returns
    exactly when the [columns] field iterates over mappings each of whose
    [badges] iterates over mappings, with the summaries of the columns and
    one partition key per matching badge; otherwise it raises [TypeError]
    or [AttributeError], and [TypeError] when [columns] itself cannot be
    iterated. *)
Theorem X4_extract_columns_on_any_shape (table_data : pydict) :
  table_data !! "error" = None →
  match py_iter (dict_get table_data "columns" (PList [])) with
  | Ok l =>
      match readable_columns l with
      | Some cols =>
          extract_columns table_data
          = Ok (PDict {[ "columns" := PList (column_summary <$> cols);
                         "partition_keys" := PList (cols ≫= partition_entries_iter) ]})
      | None => ∃ e, extract_columns table_data = Raise e ∧ loop_error e
      end
  | Raise _ => extract_columns table_data = Raise TypeError
  end.
Proof. apply extract_columns_any. Qed.

Lemma X4_witness :
  ∃ e, extract_columns sample_bad_columns = Raise e ∧ loop_error e.
Proof. exact (X4_extract_columns_on_any_shape sample_bad_columns eq_refl). Defined.

Lemma lookup_pair_fst (k1 k2 : string) (v1 v2 : pyval) :
  ({[ k1 := v1; k2 := v2 ]} : pydict) !! k1 = Some v1.
Proof. apply lookup_insert_eq. Qed.

Lemma lookup_pair_snd (k1 k2 : string) (v1 v2 : pyval) :
  k1 ≠ k2 → ({[ k1 := v1; k2 := v2 ]} : pydict) !! k2 = Some v2.
Proof. intros Hne. rewrite lookup_insert_ne by done. apply lookup_singleton_eq. Qed.

Lemma lookup_pair_other (k1 k2 k : string) (v1 v2 : pyval) :
  k1 ≠ k → k2 ≠ k → ({[ k1 := v1; k2 := v2 ]} : pydict) !! k = None.
Proof.
  intros H1 H2. rewrite lookup_insert_ne by done. by apply lookup_singleton_ne.
Qed.

Lemma Ok_PDict_inj (d d' : pydict) : Ok (PDict d) = Ok (PDict d') → d = d'.
Proof.
  intros H. exact (f_equal (λ r, match r with Ok (PDict x) => x | _ => d end) H).
Qed.

Lemma is_none_true (v : pyval) : is_none v = true ↔ v = PNone.
Proof. destruct v; simpl; intuition congruence. Qed.

(** X5: whatever the shape of the mapping, a normalizer never returns an
    empty structure in place of its sentinel: [extract_owners] never returns
    the empty list and [extract_date_range] never returns
    [{"from": None, "to": None}]. *)
Theorem X5_no_empty_structure (table_data : pydict) :
  extract_owners table_data ≠ Ok (PList [])
  ∧ extract_date_range table_data
    ≠ Ok (PDict {[ "from" := PNone; "to" := PNone ]}).
Proof.
  destruct (table_data !! "error") as [e|] eqn:Herr.
  - destruct (extract_error _ _ Herr) as (_ & -> & ->). split; [done|].
    intros H%Ok_PDict_inj. apply (f_equal (.!! "error")) in H.
    by rewrite lookup_singleton_eq, lookup_pair_other in H.
  - rewrite (extract_owners_any _ Herr), (extract_date_range_any _ Herr). split.
    + destruct (py_iter _) as [l|]; [|done].
      by destruct (dicts_of l) as [[|o os]|].
    + destruct (py_iter _) as [l|]; [|done].
      destruct (dicts_of l) as [ws|]; [|done].
      destruct (is_none (last_bound "low_watermark" ws)) eqn:Hlow;
        destruct (is_none (last_bound "high_watermark" ws)) eqn:Hhigh; simpl; try done.
      all: intros H%Ok_PDict_inj.
      * apply (f_equal (.!! "to")) in H. rewrite !lookup_pair_snd in H by done.
        injection H as H. apply is_none_true in H. congruence.
      * apply (f_equal (.!! "from")) in H. rewrite !lookup_pair_fst in H.
        injection H as H. apply is_none_true in H. congruence.
      * apply (f_equal (.!! "from")) in H. rewrite !lookup_pair_fst in H.
        injection H as H. apply is_none_true in H. congruence.
Qed.

(** X6: a normalizer returns a mapping with the key ["error"] if and only if
    its input has that key: an error-free input is never turned into an
    error value. *)
Theorem X6_error_value_only_from_marker (table_data : pydict) :
  ((∃ d, extract_columns table_data = Ok (PDict d) ∧ is_Some (d !! "error"))
   ↔ is_Some (table_data !! "error"))
  ∧ ((∃ d, extract_date_range table_data = Ok (PDict d) ∧ is_Some (d !! "error"))
     ↔ is_Some (table_data !! "error"))
  ∧ ((∃ d, extract_owners table_data = Ok (PDict d) ∧ is_Some (d !! "error"))
     ↔ is_Some (table_data !! "error")).
Proof.
  destruct (table_data !! "error") as [e|] eqn:Herr.
  - destruct (extract_error _ _ Herr) as (-> & -> & ->).
    repeat split; try done; intros _; exists {[ "error" := e ]};
      (split; [done|by rewrite lookup_singleton_eq]).
  - pose proof (extract_columns_any _ Herr) as Hc.
    rewrite (extract_owners_any _ Herr), (extract_date_range_any _ Herr).
    split; [|split]; (split; [|by intros [? ?]]); intros (d & Hd & He); exfalso.
    + destruct (py_iter (dict_get table_data "columns" _)) as [l|];
        [|congruence].
      destruct (readable_columns l) as [cols|];
        [|destruct Hc as (? & ? & _); congruence].
      rewrite Hc in Hd. apply Ok_PDict_inj in Hd as <-.
      rewrite lookup_pair_other in He by done. by destruct He.
    + clear Hc.
      destruct (py_iter (dict_get table_data "watermarks" _)) as [l|]; [|done].
      destruct (dicts_of l) as [ws|]; [|done].
      destruct (_ && _); [done|]. apply Ok_PDict_inj in Hd as <-.
      rewrite lookup_pair_other in He by done. by destruct He.
    + clear Hc.
      destruct (py_iter (dict_get table_data "owners" _)) as [l|]; [|done].
      by destruct (dicts_of l) as [[|o os]|].
Qed.

(** X7: whenever [extract_columns] returns on an error-free mapping, of any
    shape, its result is [{"columns": cs, "partition_keys": pks}] where every
    entry of [pks] is an entry of [cs]; in particular no columns, no
    partition keys. *)
Theorem X7_partition_keys_among_columns (table_data : pydict) (r : pyval) :
  table_data !! "error" = None →
  extract_columns table_data = Ok r →
  ∃ cs pks,
    r = PDict {[ "columns" := PList cs; "partition_keys" := PList pks ]}
    ∧ (∀ x, x ∈ pks → x ∈ cs)
    ∧ (cs = [] → pks = []).
Proof.
  intros Herr Hr. pose proof (extract_columns_any _ Herr) as Hc.
  destruct (py_iter (dict_get table_data "columns" _)) as [l|]; [|congruence].
  destruct (readable_columns l) as [cols|]; [|destruct Hc as (? & ? & _); congruence].
  rewrite Hc in Hr. assert (r = PDict {[ "columns" := PList (column_summary <$> cols);
    "partition_keys" := PList (cols ≫= partition_entries_iter) ]}) as -> by congruence.
  exists (column_summary <$> cols), (cols ≫= partition_entries_iter).
  split; [done|]. split.
  - intros x. rewrite list_elem_of_bind. intros (c & Hx & Hcin).
    unfold partition_entries_iter in Hx. apply elem_of_replicate in Hx as [-> _].
    by apply list_elem_of_fmap_2.
  - intros Hnil. apply fmap_nil_inv in Hnil. by subst.
Qed.

Lemma X7_witness :
  ∃ cs pks,
    PDict {[ "columns" := PList (column_summary <$> sample_columns);
             "partition_keys" := PList (sample_columns ≫= partition_entries) ]}
    = PDict {[ "columns" := PList cs; "partition_keys" := PList pks ]}
    ∧ (∀ x, x ∈ pks → x ∈ cs)
    ∧ (cs = [] → pks = []).
Proof.
  exact (X7_partition_keys_among_columns sample_table _ eq_refl
           (extract_columns_ok sample_table sample_columns eq_refl eq_refl eq_refl)).
Defined.

(** ** Further properties of the client and the tools *)

Lemma string_app_assoc (s1 s2 s3 : string) :
  (s1 +:+ s2) +:+ s3 = s1 +:+ (s2 +:+ s3).
Proof.
  induction s1 as [|a s1 IH]; [done|].
  change (String a ((s1 +:+ s2) +:+ s3) = String a (s1 +:+ (s2 +:+ s3))).
  by rewrite IH.
Qed.

Lemma after_request_ne url w : after_request url w ≠ w.
Proof.
  intros H. apply (f_equal (λ x, length (requests x))) in H. simpl in H.
  rewrite length_app in H. simpl in H. lia.
Qed.

Lemma trace_after_request url w :
  trace_mirrors_requests w → trace_mirrors_requests (after_request url w).
Proof.
  unfold trace_mirrors_requests. simpl. intros ->. by rewrite fmap_app.
Qed.

Lemma get_lineage_default_depth BASE_URL urlopen db s t depth direction :
  get_lineage BASE_URL urlopen db s t depth direction
  = get_lineage BASE_URL urlopen db s t (Some (default 1%Z depth))
      (Some (default "both" direction)).
Proof. by destruct depth, direction. Qed.

Lemma get_lineage_invalid BASE_URL urlopen db s t depth direction w :
  default "both" direction ∉ ["both"; "upstream"; "downstream"] →
  get_lineage BASE_URL urlopen db s t depth direction w
  = (Ok (PDict {[ "error" :=
       PStr "Invalid direction. Must be one of: both, upstream, downstream" ]}), w).
Proof.
  intros Hdir. rewrite get_lineage_default_depth. unfold get_lineage.
  cbn [from_option id]. by rewrite (bool_decide_eq_false_2 _ Hdir).
Qed.

Lemma get_lineage_by_outcome BASE_URL urlopen db s t depth direction w :
  default "both" direction ∈ ["both"; "upstream"; "downstream"] →
  get_lineage BASE_URL urlopen db s t depth direction w
  = (match urlopen (lineage_url (get_table_url BASE_URL db s t)
                      (default 1%Z depth) (default "both" direction)) with
     | Body response =>
         let upstream := dict_get response "upstream_entities" PNone in
         let downstream := dict_get response "downstream_entities" PNone in
         Ok (if py_truthy upstream || py_truthy downstream
             then PDict {[ "upstream" := upstream; "downstream" := downstream ]}
             else PStr "Table has no lineage")
     | URLError _ => Ok (PStr "Table has no lineage")
     | Uncaught e => Raise e
     end,
     after_request (lineage_url (get_table_url BASE_URL db s t)
                      (default 1%Z depth) (default "both" direction)) w).
Proof.
  intros Hdir. rewrite get_lineage_default_depth, (get_lineage_valid _ _ _ _ _ _ _ _ Hdir).
  rewrite make_request_spec. by destruct (urlopen _).
Qed.

Lemma get_tables_dashboard_by_outcome BASE_URL urlopen db s t w :
  get_tables_dashboard BASE_URL urlopen db s t w
  = (match urlopen (dashboard_url (get_table_url BASE_URL db s t)) with
     | Body response =>
         match py_iter (dict_get response "dashboards" PNone) with
         | Ok l =>
             match dicts_of l with
             | Some [] => Ok (PStr "table has no dashboard")
             | Some ds => Ok (PList (dashboard_ref <$> ds))
             | None => Raise AttributeError
             end
         | Raise _ => Raise TypeError
         end
     | URLError _ => Raise TypeError
     | Uncaught e => Raise e
     end,
     after_request (dashboard_url (get_table_url BASE_URL db s t)) w).
Proof.
  rewrite get_tables_dashboard_spec, make_request_spec.
  destruct (urlopen _) as [response|msg|e]; [|done..].
  destruct (py_iter _) as [l|e] eqn:Hit; simpl.
  - destruct (dicts_of l) as [ds|] eqn:Hl.
    + rewrite (dicts_of_Some _ _ Hl), dashboard_loop. simpl. by destruct ds.
    + by rewrite (for_each_not_dicts _ _ _ dashboard_step_ok dashboard_step_other Hl).
  - by rewrite (py_iter_raises _ _ Hit).
Qed.

Lemma metadata_tool_by_outcome BASE_URL urlopen db s t w
    (normalize : pydict → res pyval) :
  (∀ msg, normalize {[ "error" := PStr msg ]} = Ok (PDict {[ "error" := PStr msg ]})) →
  (table_data ← get_metadata BASE_URL urlopen db s t; lift (normalize table_data)) w
  = (match urlopen (get_table_url BASE_URL db s t) with
     | Body response => normalize response
     | URLError msg => Ok (PDict {[ "error" := PStr msg ]})
     | Uncaught e => Raise e
     end,
     after_request (get_table_url BASE_URL db s t) w).
Proof.
  intros Herr. unfold mbind, io_bind. rewrite get_metadata_spec, make_request_spec.
  destruct (urlopen _) as [response|msg|e]; try done.
  unfold lift. by rewrite Herr.
Qed.

Lemma extract_error_response msg :
  extract_columns {[ "error" := PStr msg ]} = Ok (PDict {[ "error" := PStr msg ]})
  ∧ extract_date_range {[ "error" := PStr msg ]} = Ok (PDict {[ "error" := PStr msg ]})
  ∧ extract_owners {[ "error" := PStr msg ]} = Ok (PDict {[ "error" := PStr msg ]}).
Proof. apply extract_error. apply lookup_singleton_eq. Qed.

(** X8: what [get_tables_dashboard] does, by what the request comes to.
    On a response it maps every entry of [dashboards] in order to
    [{url, dashboard_name, collection_name}] ([name] and [group_name]
    renamed), with the sentinel for no entry; it raises [TypeError] when the
    [dashboards] field is missing, null or not iterable, and
    [AttributeError] when an entry is no mapping.  On a failed fetch it
    raises [TypeError]; an exception [make_request] does not catch passes
    through.  In every case the request was made once. *)
Theorem X8_dashboards_by_outcome (BASE_URL : string) (urlopen : string → http_outcome)
    (db s t : string) (w : world) :
  get_tables_dashboard BASE_URL urlopen db s t w
  = (match urlopen (dashboard_url (get_table_url BASE_URL db s t)) with
     | Body response =>
         match py_iter (dict_get response "dashboards" PNone) with
         | Ok l =>
             match dicts_of l with
             | Some [] => Ok (PStr "table has no dashboard")
             | Some ds => Ok (PList (dashboard_ref <$> ds))
             | None => Raise AttributeError
             end
         | Raise _ => Raise TypeError
         end
     | URLError _ => Raise TypeError
     | Uncaught e => Raise e
     end,
     after_request (dashboard_url (get_table_url BASE_URL db s t)) w)
  ∧ (∀ response,
       urlopen (dashboard_url (get_table_url BASE_URL db s t)) = Body response →
       response !! "dashboards" = None ∨ response !! "dashboards" = Some PNone →
       (get_tables_dashboard BASE_URL urlopen db s t w).1 = Raise TypeError).
Proof.
  split; [apply get_tables_dashboard_by_outcome|].
  intros response Hbody Hnone. rewrite get_tables_dashboard_by_outcome, Hbody.
  unfold dict_get. by destruct Hnone as [-> | ->].
Qed.

(** X9: what the three metadata tools do, by what the request comes to: on
    a response, the normalizer's result on it; on a failed fetch, the
    structured [{"error": str(e)}], the same for all three; an exception
    [make_request] does not catch passes through.  In every case the
    table's URL was requested once, and nothing else. *)
Theorem X9_metadata_tools_by_outcome (BASE_URL : string)
    (urlopen : string → http_outcome) (db s t : string) (w : world) :
  let outcome (normalize : pydict → res pyval) :=
    (match urlopen (get_table_url BASE_URL db s t) with
     | Body response => normalize response
     | URLError msg => Ok (PDict {[ "error" := PStr msg ]})
     | Uncaught e => Raise e
     end,
     after_request (get_table_url BASE_URL db s t) w) in
  get_table_columns BASE_URL urlopen db s t w = outcome extract_columns
  ∧ get_table_date_range BASE_URL urlopen db s t w = outcome extract_date_range
  ∧ get_table_owners BASE_URL urlopen db s t w = outcome extract_owners.
Proof.
  intros outcome. unfold outcome, get_table_columns, get_table_date_range,
    get_table_owners.
  repeat split; apply metadata_tool_by_outcome; intros msg;
    apply (extract_error_response msg).
Qed.

(** X10: for a direction of the enumeration (given or defaulted),
    [get_lineage] does not raise on a request answered with a JSON object,
    whatever that object holds; a failed fetch comes out as
    ["Table has no lineage"]; an exception [make_request] does not catch
    passes through.  The request carries the depth as given, or 1. *)
Theorem X10_lineage_by_outcome (BASE_URL : string) (urlopen : string → http_outcome)
    (db s t : string) (depth : option Z) (direction : option string) (w : world) :
  default "both" direction ∈ ["both"; "upstream"; "downstream"] →
  let url := lineage_url (get_table_url BASE_URL db s t)
               (default 1%Z depth) (default "both" direction) in
  let result := get_lineage BASE_URL urlopen db s t depth direction w in
  result.2 = after_request url w
  ∧ match urlopen url with
    | Body response => is_ok result.1 = true
    | URLError _ => result.1 = Ok (PStr "Table has no lineage")
    | Uncaught e => result.1 = Raise e
    end.
Proof.
  intros Hdir url result. unfold result, url.
  rewrite (get_lineage_by_outcome _ _ _ _ _ _ _ _ Hdir).
  split; [done|]. by destruct (urlopen _).
Qed.

Lemma X10_witness :
  (get_lineage "http://localhost:5000" catalog_down "hive" "core" "orders"
     (Some 2%Z) None w0).1
  = Ok (PStr "Table has no lineage").
Proof.
  assert (default "both" None ∈ ["both"; "upstream"; "downstream"]) as Hdir
    by (refine (bool_decide_unpack _ _); vm_compute; exact I).
  exact (proj2 (X10_lineage_by_outcome "http://localhost:5000" catalog_down
    "hive" "core" "orders" (Some 2%Z) None w0 Hdir)).
Defined.

(** X11: [get_lineage] returns the validation error if and only if the
    direction (given or defaulted) is outside the enumeration, and it leaves
    the world untouched if and only if that is so: a valid direction always
    costs a request. *)
Theorem X11_validation_error_iff_invalid (BASE_URL : string)
    (urlopen : string → http_outcome) (db s t : string) (depth : option Z)
    (direction : option string) (w : world) :
  let result := get_lineage BASE_URL urlopen db s t depth direction w in
  (result.1 = Ok (PDict {[ "error" :=
      PStr "Invalid direction. Must be one of: both, upstream, downstream" ]})
   ↔ default "both" direction ∉ ["both"; "upstream"; "downstream"])
  ∧ (result.2 = w
     ↔ default "both" direction ∉ ["both"; "upstream"; "downstream"]).
Proof.
  intros result. unfold result.
  destruct (decide (default "both" direction ∈ ["both"; "upstream"; "downstream"]))
    as [Hdir|Hdir].
  - rewrite (get_lineage_by_outcome _ _ _ _ _ _ _ _ Hdir). simpl. split.
    + split; [|done]. intros H. exfalso.
      destruct (urlopen _) as [response|msg|e]; [|done..].
      simpl in H. destruct (_ || _); [|done].
      apply Ok_PDict_inj, (f_equal (.!! "error")) in H.
      by rewrite lookup_singleton_eq, lookup_pair_other in H.
    + split; [|done]. intros H. by apply after_request_ne in H.
  - by rewrite (get_lineage_invalid _ _ _ _ _ _ _ _ Hdir).
Qed.

(** X12: every tool keeps the standard output in step with the network:
    if the output so far holds one ["Requesting: <url>"] line per URL opened,
    in order, it still does after the tool, whatever the tool returns or
    raises; and a tool opens at most one URL. *)
Theorem X12_trace_mirrors_requests (BASE_URL : string)
    (urlopen : string → http_outcome) (db s t : string) (depth : option Z)
    (direction : option string) (w : world) :
  trace_mirrors_requests w →
  Forall (λ w', trace_mirrors_requests w' ∧ one_call_later w w')
    [ (get_table_columns BASE_URL urlopen db s t w).2;
      (get_table_date_range BASE_URL urlopen db s t w).2;
      (get_table_owners BASE_URL urlopen db s t w).2;
      (get_table_lineage_info BASE_URL urlopen db s t depth direction w).2;
      (get_table_dasboard_info BASE_URL urlopen db s t w).2 ].
Proof.
  intros Hw.
  assert (∀ url, trace_mirrors_requests (after_request url w)
                 ∧ one_call_later w (after_request url w)) as Hafter.
  { intros url. split; [by apply trace_after_request|right; by exists url]. }
  assert (trace_mirrors_requests w ∧ one_call_later w w) as Hsame
    by (split; [done|by left]).
  unfold get_table_columns, get_table_date_range, get_table_owners,
    get_table_dasboard_info.
  rewrite !metadata_tool_by_outcome by (intros msg; apply (extract_error_response msg)).
  rewrite get_tables_dashboard_by_outcome. cbn [snd].
  repeat apply List.Forall_cons; [apply Hafter..| |apply Hafter|apply List.Forall_nil].
  unfold get_table_lineage_info.
  destruct (decide (default "both" direction ∈ ["both"; "upstream"; "downstream"]))
    as [Hdir|Hdir].
  - rewrite (get_lineage_by_outcome _ _ _ _ _ (Some _) (Some _) _ Hdir).
    cbn [snd]. apply Hafter.
  - by rewrite (get_lineage_invalid _ _ _ _ _ (Some _) (Some _) _ Hdir).
Qed.

Lemma X12_witness :
  trace_mirrors_requests
    (get_table_owners "http://localhost:5000" catalog_down "hive" "core" "orders" w0).2.
Proof.
  pose proof (X12_trace_mirrors_requests "http://localhost:5000" catalog_down
    "hive" "core" "orders" None None w0 eq_refl) as H.
  exact (proj1 (Forall_inv (Forall_inv_tail (Forall_inv_tail H)))).
Defined.

(** X13: for a given base URL, database and schema, [get_table_url] gives
    different tables different URLs. *)
Theorem X13_table_url_separates_tables (BASE_URL db s t t' : string) :
  get_table_url BASE_URL db s t = get_table_url BASE_URL db s t' ↔ t = t'.
Proof.
  split; [|by intros ->]. unfold get_table_url. intros H.
  by do 6 apply (inj (String.app _)) in H.
Qed.

(** X14: [get_table_url] does not escape its arguments: a slash in a schema
    or table name is taken as it is, so the schema [s/t] with table [u] and
    the schema [s] with table [t/u] get the same URL. *)
Theorem X14_table_url_does_not_escape (BASE_URL db s t u : string) :
  get_table_url BASE_URL db (s +:+ "/" +:+ t) u
  = get_table_url BASE_URL db s (t +:+ "/" +:+ u).
Proof.
  unfold get_table_url. do 4 f_equal. by rewrite !string_app_assoc.
Qed.
